(** * shokz-sync: the sync orchestration and its device utilities

    A shallow embedding of [shokz_sync/diskutil_utils.py],
    [shokz_sync/fatsort_utils.py], [shokz_sync/dependencies.py] and of
    [sync_shokz] in [shokz_sync/cli.py], with the properties the
    specification states about them. *)

From Stdlib Require Import String Ascii ZArith List Bool Lia.
From stdpp Require Import base option list strings gmap pretty.
Import ListNotations.

Local Open Scope Z_scope.
Local Open Scope nat_scope.

(** ** Python [str]

    A [str] is modelled as a [string] whose characters are the code
    points below 256.  The operations below follow CPython on that
    range. *)

Module Str.

Definition code (c : ascii) : nat := nat_of_ascii c.

(** [str.isspace] on one character. *)
Definition is_space (c : ascii) : bool :=
  let n := code c in
  ((9 <=? n) && (n <=? 13)) || ((28 <=? n) && (n <=? 32))
  || (n =? 133) || (n =? 160).

(** Line boundaries of [str.splitlines]. *)
Definition is_linebreak (c : ascii) : bool :=
  let n := code c in
  ((10 <=? n) && (n <=? 13)) || ((28 <=? n) && (n <=? 30)) || (n =? 133).

(** [str.lower] on one character: A-Z, and the upper-case letters of
    the Latin-1 block (all of 192..222 but the multiplication sign). *)
Definition lower_char (c : ascii) : ascii :=
  let n := code c in
  if ((65 <=? n) && (n <=? 90))
     || ((192 <=? n) && (n <=? 222) && negb (n =? 215))
  then ascii_of_nat (n + 32) else c.

Fixpoint lower (s : string) : string :=
  match s with
  | EmptyString => EmptyString
  | String c s' => String (lower_char c) (lower s')
  end.

(** [s.startswith(p)]. *)
Fixpoint startswith (p s : string) : bool :=
  match p, s with
  | EmptyString, _ => true
  | String _ _, EmptyString => false
  | String a p', String b s' => Ascii.eqb a b && startswith p' s'
  end.

(** [needle in hay]. *)
Fixpoint contains (needle hay : string) : bool :=
  startswith needle hay ||
  match hay with
  | EmptyString => false
  | String _ hay' => contains needle hay'
  end.

(** [s[n:]] and [s[:n]]. *)
Fixpoint drop (n : nat) (s : string) : string :=
  match n, s with
  | O, _ => s
  | S _, EmptyString => EmptyString
  | S n', String _ s' => drop n' s'
  end.

Fixpoint take (n : nat) (s : string) : string :=
  match n, s with
  | O, _ => EmptyString
  | S _, EmptyString => EmptyString
  | S n', String c s' => String c (take n' s')
  end.

(** [s.find(old)]: the index of the first occurrence. *)
Fixpoint find (old s : string) : option nat :=
  if startswith old s then Some 0
  else match s with
       | EmptyString => None
       | String _ s' => S <$> find old s'
       end.

(** The scan of [str.replace] for a non-empty [old]: left to right,
    an occurrence found at the cursor is replaced and the cursor moves
    past it ([skip] counts the characters of that occurrence still to
    be passed over). *)
Fixpoint replace_scan (skip : nat) (old new s : string) : string :=
  match s with
  | EmptyString => EmptyString
  | String c s' =>
      match skip with
      | S k => replace_scan k old new s'
      | O =>
          if startswith old s
          then new +:+ replace_scan (String.length old - 1) old new s'
          else String c (replace_scan 0 old new s')
      end
  end.

(** With an empty [old], [new] goes before every character and at the
    end. *)
Fixpoint replace_empty (new s : string) : string :=
  match s with
  | EmptyString => new
  | String c s' => new +:+ String c (replace_empty new s')
  end.

(** [s.replace(old, new)]. *)
Definition replace (old new s : string) : string :=
  match old with
  | EmptyString => replace_empty new s
  | String _ _ => replace_scan 0 old new s
  end.

(** [s.replace(old, new, 1)]: the first occurrence only. *)
Definition replace_first (old new s : string) : string :=
  match find old s with
  | Some i => take i s +:+ new +:+ drop (i + String.length old) s
  | None => s
  end.

Fixpoint lstrip (s : string) : string :=
  match s with
  | EmptyString => EmptyString
  | String c s' => if is_space c then lstrip s' else s
  end.

Fixpoint rstrip (s : string) : string :=
  match s with
  | EmptyString => EmptyString
  | String c s' =>
      match rstrip s' with
      | EmptyString => if is_space c then EmptyString else String c EmptyString
      | r => String c r
      end
  end.

(** [s.strip()]. *)
Definition strip (s : string) : string := rstrip (lstrip s).

(** [s.splitlines()]: a line ends at a line boundary (CR LF counts as
    one) or at the end of the text; no empty last line. *)
Fixpoint splitlines (s : string) : list string :=
  match s with
  | EmptyString => []
  | String c s' =>
      if is_linebreak c then
        EmptyString ::
          (if Ascii.eqb c "013" then
             match s' with
             | String "010" s'' => splitlines s''
             | _ => splitlines s'
             end
           else splitlines s')
      else
        match splitlines s' with
        | [] => [String c EmptyString]
        | l :: ls => String c l :: ls
        end
  end.

(** [s.split(sep, 1)] for a one-character [sep] that occurs in [s],
    as the pair of its two parts; ([s], empty) when [sep] is absent. *)
Fixpoint split_once (sep : ascii) (s : string) : string * string :=
  match s with
  | EmptyString => (EmptyString, EmptyString)
  | String c s' =>
      if Ascii.eqb c sep then (EmptyString, s')
      else let '(k, v) := split_once sep s' in (String c k, v)
  end.

(** [sep.join(l)]. *)
Fixpoint join (sep : string) (l : list string) : string :=
  match l with
  | [] => EmptyString
  | [x] => x
  | x :: l' => x +:+ sep +:+ join sep l'
  end.

End Str.


Definition nl : string := String "010" EmptyString.

(** ** Results of calls that can raise *)

Inductive result (E A : Type) : Type :=
| Ok (a : A)
| Raise (e : E).
Arguments Ok {E A} a.
Arguments Raise {E A} e.

Definition is_ok {E A} (r : result E A) : bool :=
  match r with Ok _ => true | Raise _ => false end.

(** [subprocess.CompletedProcess], with [capture_output=True, text=True]. *)
Record CompletedProcess : Type := {
  returncode : Z;
  stdout : string;
  stderr : string
}.

(** ** diskutil_utils.py

    Each function takes, after the arguments of the source, what the
    external [diskutil] process it starts turned out to do, for a
    process that ran to its end; module [Uncaught] below has the
    exceptions that [subprocess.run] raises when it did not. *)

Inductive DiskutilError : Type := MkDiskutilError (message : string).

Definition str_of (e : DiskutilError) : string :=
  match e with MkDiskutilError m => m end.

Definition run_command (cmd : list string) (check : bool) (p : CompletedProcess)
  : result DiskutilError CompletedProcess :=
  if check && negb (returncode p =? 0)%Z
  then Raise (MkDiskutilError
                ("Command failed: " +:+ Str.join " " cmd +:+ nl +:+ stderr p))
  else Ok p.

(** The body of the loop of [get_mount_info]. *)
Definition parse_line (info : gmap string string) (line : string)
  : gmap string string :=
  let line := Str.strip line in
  if Str.contains ":" line then
    let '(key, value) := Str.split_once ":" line in
    <[Str.strip key := Str.strip value]> info
  else info.

Definition parse_info (text : string) : gmap string string :=
  foldl parse_line ∅ (Str.splitlines text).

Definition get_mount_info (mountpoint : string) (p : CompletedProcess)
  : result DiskutilError (gmap string string) :=
  match run_command ["diskutil"; "info"; mountpoint] true p with
  | Raise e => Raise e
  | Ok result =>
      let info := parse_info (stdout result) in
      if decide (info = ∅)
      then Raise (MkDiskutilError
                    ("Could not get info for mountpoint: " +:+ mountpoint))
      else Ok info
  end.

Definition get_device_node (mountpoint : string) (p : CompletedProcess)
  : result DiskutilError string :=
  match get_mount_info mountpoint p with
  | Raise e => Raise e
  | Ok info =>
      match info !! "Device Node" with
      | None | Some EmptyString =>
          Raise (MkDiskutilError
                   ("Could not determine device node for " +:+ mountpoint))
      | Some device_node => Ok device_node
      end
  end.

Definition get_raw_device_node (device_node : string) : string :=
  Str.replace "/dev/disk" "/dev/rdisk" device_node.

Definition busy_message (mountpoint : string) : string :=
  "Cannot unmount " +:+ mountpoint +:+ " - resource is busy." +:+ nl +:+
  "Close any Finder windows or apps accessing the volume and try again.".

(** The condition of the [except] clause of [unmount_volume], on the text
    [str(e)] of the error caught. *)
Definition says_busy (text : string) : bool :=
  Str.contains "Resource busy" text || Str.contains "busy" (Str.lower text).

Definition unmount_volume (mountpoint : string) (p : CompletedProcess)
  : result DiskutilError unit :=
  let attempt :=
    match run_command ["diskutil"; "unmount"; mountpoint] true p with
    | Raise e => Raise e
    | Ok result =>
        if negb (Str.contains "unmounted" (Str.lower (stdout result)))
        then Raise (MkDiskutilError
                      ("Unmount may have failed: " +:+ stdout result))
        else Ok tt
    end in
  match attempt with
  | Ok _ => Ok tt
  | Raise e =>
      if says_busy (str_of e)
      then Raise (MkDiskutilError (busy_message mountpoint))
      else Raise e
  end.


(** Where the tool reports why an unmount did not go through: its
    standard error after a non-zero exit, its output otherwise. *)
Definition reported_error_text (p : CompletedProcess) : string :=
  if (returncode p =? 0)%Z then stdout p else stderr p.

Definition mount_volume (device_node : string) (p : CompletedProcess)
  : result DiskutilError unit :=
  match run_command ["diskutil"; "mount"; device_node] true p with
  | Raise e => Raise e
  | Ok result =>
      if negb (Str.contains "mounted" (Str.lower (stdout result)))
      then Raise (MkDiskutilError ("Mount may have failed: " +:+ stdout result))
      else Ok tt
  end.

(** [path_exists] is the answer of [os.path.exists(mountpoint)]. *)
Definition is_mounted (mountpoint : string) (path_exists : bool)
    (p : CompletedProcess) : bool :=
  if negb path_exists then false
  else match get_mount_info mountpoint p with
       | Ok info => bool_decide (info !! "Mounted" = Some "Yes")
       | Raise _ => false
       end.

(** ** fatsort_utils.py *)

Inductive FatsortError : Type := MkFatsortError (message : string).

(** What [subprocess.run] does in [run_fatsort], as far as the function
    handles it: the process ran, or the executable was not found
    ([FileNotFoundError]).  Any other exception of [subprocess.run]
    leaves [run_fatsort]; module [Uncaught] below has these. *)
Inductive fatsort_run : Type :=
| FatsortRan (p : CompletedProcess)
| FatsortNotFound.

(** The first statement of [run_fatsort]: the node the command is built
    with. *)
Definition ensure_raw (device_node : string) : string :=
  if negb (Str.contains "/rdisk" device_node)
  then Str.replace "/dev/disk" "/dev/rdisk" device_node
  else device_node.

(** The command [run_fatsort] builds, up to the call of [subprocess.run]. *)
Definition fatsort_cmd (device_node : string) (use_sudo : bool) : list string :=
  let device_node := ensure_raw device_node in
  let cmd := [] in
  let cmd := if use_sudo then cmd ++ ["sudo"] else cmd in
  cmd ++ ["fatsort"; "-o"; "a"; device_node].

(** [run_fatsort], from the call of [subprocess.run(cmd, check=True)] on. *)
Definition run_fatsort (device_node : string) (use_sudo : bool) (r : fatsort_run)
  : result FatsortError unit :=
  match r with
  | FatsortRan p =>
      if (returncode p =? 0)%Z then Ok tt
      else
        let error_msg :=
          "fatsort failed with exit code " +:+ pretty (returncode p) in
        let error_msg :=
          match stderr p with
          | EmptyString => error_msg
          | _ => error_msg +:+ ":" +:+ nl +:+ stderr p
          end in
        Raise (MkFatsortError error_msg)
  | FatsortNotFound =>
      Raise (MkFatsortError
               "fatsort command not found. Install it with: brew install fatsort")
  end.

(** ** dependencies.py *)

Record command_info : Type := {
  name : string;
  install : string;
  check_cmd : list string
}.

Definition REQUIRED_COMMANDS : list (string * command_info) :=
  [ ("beet", {| name := "beets"; install := "brew install beets";
                check_cmd := ["beet"; "version"] |});
    ("ffmpeg", {| name := "ffmpeg"; install := "brew install ffmpeg";
                  check_cmd := ["ffmpeg"; "-version"] |});
    ("ffprobe", {| name := "ffprobe (part of ffmpeg)";
                   install := "brew install ffmpeg";
                   check_cmd := ["ffprobe"; "-version"] |});
    ("fatsort", {| name := "fatsort"; install := "brew install fatsort";
                   check_cmd := ["fatsort"; "--version"] |});
    ("diskutil", {| name := "diskutil"; install := "Built-in to macOS";
                    check_cmd := ["diskutil"; "list"] |}) ].

(** What [subprocess.run(check_cmd, timeout=5, check=False)] does in
    [verify_command_works], as far as the function handles it: it
    returns, or raises one of the two exceptions that the [except]
    clause names.  Any other exception leaves [verify_command_works];
    module [Uncaught] below has these. *)
Inductive check_run : Type :=
| CheckReturned
| CheckTimeoutExpired
| CheckNotFound.

Section Dependencies.
(** [shutil.which(command) is not None], and the run of a check command. *)
Variable which : string -> bool.
Variable run_check : list string -> check_run.

Definition check_command_available (command : string) : bool := which command.

Definition verify_command_works (command : string) (check_cmd : list string)
  : bool :=
  if negb (check_command_available command) then false
  else match run_check check_cmd with
       | CheckReturned => true
       | CheckTimeoutExpired | CheckNotFound => false
       end.

Definition check_all_dependencies : list (string * bool) :=
  map (fun '(cmd, info) => (cmd, verify_command_works cmd (check_cmd info)))
      REQUIRED_COMMANDS.

(** The return value of [verify_dependencies]; what it prints is not
    modelled. *)
Definition verify_dependencies (verbose : bool) : bool :=
  let results := check_all_dependencies in
  let missing := map fst (filter (fun '(_, available) => available = false) results) in
  match missing with
  | [] => true
  | _ :: _ => false
  end.
End Dependencies.

(** The disk-info text of [tests/test_core_behavior.py]. *)
Definition SAMPLE_DISKUTIL_OUTPUT : string :=
  nl +:+ "   Device Node:              /dev/disk4s1" +:+ nl +:+
  "   Volume Name:              XTRAINERZ" +:+ nl +:+
  "   Mounted:                  Yes" +:+ nl +:+
  "   Mount Point:              /Volumes/XTRAINERZ" +:+ nl +:+
  "   File System Personality:  MS-DOS FAT32" +:+ nl.

(** ** cli.py: the world of one sync session

    [sync_shokz] talks to its collaborators one call at a time.  A
    session is modelled by the list of what happened so far, oldest
    first: each call of a collaborator with what it returned or raised,
    and each message of the logging helpers.  The answers of the
    outside world come from an environment that may let every answer
    depend on all that happened before. *)

Record Namespace : Type := {
  args_mountpoint : string;
  args_bitrate : string;
  args_no_convert : bool;
  args_dry_run : bool;
  args_verbose : bool
}.

(** The four helpers [log_step], [log_success], [log_error], [log_info]. *)
Inductive level : Type := Step | Success | Error | Info.

(** What [subprocess.run(cmd, check=False)] does in [run_beets_import]. *)
Inductive beet_run : Type :=
| BeetReturned (code : Z)
| BeetNotFound
| BeetException (message : string).

Inductive event : Type :=
| Log (l : level) (message : string)
| VerifyDependencies (verbose : bool) (r : bool)
| IsMounted (mountpoint : string) (r : bool)
| VerifyBeetsConfig (config_path : string) (r : bool)
| CreateBeetsConfig (config_path mountpoint bitrate : string)
                    (r : result string string)
| CountMusicFiles (directory : string) (n : nat)
| BeetsImport (cmd : list string) (r : beet_run)
| GetDeviceNode (mountpoint : string) (r : result DiskutilError string)
| UnmountVolume (mountpoint : string) (r : result DiskutilError unit)
| RunFatsort (device_node : string) (use_sudo : bool)
             (r : result FatsortError unit)
| MountVolume (device_node : string) (r : result DiskutilError unit)
| Summary (mountpoint device_node : string) (music_files : nat).

(** The environment.  The three functions of [shokz_sync/beets_config.py]
    that [sync_shokz] calls are part of it, as are the directory walk of
    [count_music_files] and the processes.  A [diskutil] process always
    comes back with a [CompletedProcess], and the start of a process
    fails only in the ways the source handles: these are the sessions
    in which every call returns or raises the error of its module.
    Module [Uncaught] below has the sessions in which [subprocess.run]
    raises an exception that no handler names. *)
Record Env : Type := {
  shutil_which : list event -> string -> bool;
  subprocess_check : list event -> list string -> check_run;
  os_path_exists : list event -> string -> bool;
  subprocess_diskutil : list event -> list string -> CompletedProcess;
  subprocess_fatsort : list event -> list string -> fatsort_run;
  subprocess_beet : list event -> list string -> beet_run;
  os_walk_music : list event -> string -> nat;
  get_default_config_path : string;
  verify_beets_config : list event -> string -> bool;
  create_beets_config :
    list event -> string -> string -> string -> result string string
}.

(** Computations of a session: they read and extend the history. *)
Definition M (A : Type) : Type := list event -> A * list event.

Definition ret {A : Type} (a : A) : M A := fun h => (a, h).

Definition bind {A B : Type} (m : M A) (k : A -> M B) : M B :=
  fun h => let '(a, h') := m h in k a h'.

#[global] Instance M_ret : MRet M := @ret.
#[global] Instance M_bind : MBind M := fun A B k m => bind m k.

Definition emit (e : event) : M unit := fun h => (tt, h ++ [e]).

(** A call of a collaborator: the outside world answers from the history,
    and the call goes into the history with its result. *)
Definition perform {A : Type} (answer : list event -> A) (record : A -> event)
  : M A :=
  fun h => let a := answer h in (a, h ++ [record a]).

Definition log_step (message : string) : M unit := emit (Log Step message).
Definition log_success (message : string) : M unit := emit (Log Success message).
Definition log_error (message : string) : M unit := emit (Log Error message).
Definition log_info (message : string) : M unit := emit (Log Info message).

Definition fatsort_message (e : FatsortError) : string :=
  match e with MkFatsortError m => m end.

Section Session.
Variable env : Env.

Definition call_verify_dependencies (verbose : bool) : M bool :=
  perform (fun h => verify_dependencies (shutil_which env h)
                      (subprocess_check env h) verbose)
          (VerifyDependencies verbose).

Definition call_is_mounted (mountpoint : string) : M bool :=
  perform (fun h => is_mounted mountpoint (os_path_exists env h mountpoint)
                      (subprocess_diskutil env h ["diskutil"; "info"; mountpoint]))
          (IsMounted mountpoint).

Definition call_verify_beets_config (config_path : string) : M bool :=
  perform (fun h => verify_beets_config env h config_path)
          (VerifyBeetsConfig config_path).

Definition call_create_beets_config (config_path mountpoint bitrate : string)
  : M (result string string) :=
  perform (fun h => create_beets_config env h config_path mountpoint bitrate)
          (CreateBeetsConfig config_path mountpoint bitrate).

Definition call_get_device_node (mountpoint : string)
  : M (result DiskutilError string) :=
  perform (fun h => get_device_node mountpoint
                      (subprocess_diskutil env h ["diskutil"; "info"; mountpoint]))
          (GetDeviceNode mountpoint).

Definition call_unmount_volume (mountpoint : string)
  : M (result DiskutilError unit) :=
  perform (fun h => unmount_volume mountpoint
                      (subprocess_diskutil env h ["diskutil"; "unmount"; mountpoint]))
          (UnmountVolume mountpoint).

Definition call_run_fatsort (device_node : string) (use_sudo : bool)
  : M (result FatsortError unit) :=
  perform (fun h => run_fatsort device_node use_sudo
                      (subprocess_fatsort env h (fatsort_cmd device_node use_sudo)))
          (RunFatsort device_node use_sudo).

Definition call_mount_volume (device_node : string)
  : M (result DiskutilError unit) :=
  perform (fun h => mount_volume device_node
                      (subprocess_diskutil env h ["diskutil"; "mount"; device_node]))
          (MountVolume device_node).

(** [count_music_files]: the walk itself is the environment's, which
    answers with the number of files with a music suffix. *)
Definition count_music_files (directory : string) : M nat :=
  perform (fun h => os_walk_music env h directory) (CountMusicFiles directory).

Definition run_beets_import (mountpoint : string) (config_path : option string)
    (dry_run : bool) : M bool :=
  let cmd := ["beet"] in
  let cmd := match config_path with
             | Some p => cmd ++ ["-c"; p]
             | None => cmd
             end in
  let cmd := cmd ++ ["import"] in
  let cmd := if dry_run then cmd ++ ["--pretend"] else cmd in
  let cmd := cmd ++ ["--quiet"] in
  let cmd := cmd ++ [mountpoint] in
  log_info ("Running: " +:+ Str.join " " cmd) ;;
  r ← perform (fun h => subprocess_beet env h cmd) (BeetsImport cmd) ;
  match r with
  | BeetReturned code => ret (code =? 0)%Z
  | BeetNotFound => log_error "beet command not found" ;; ret false
  | BeetException e => log_error ("Failed to run beets: " +:+ e) ;; ret false
  end.

Definition sync_shokz (args : Namespace) : M Z :=
  let mountpoint := args_mountpoint args in
  log_step "Checking dependencies" ;;
  deps ← call_verify_dependencies (args_verbose args) ;
  if negb deps then ret 1%Z else
  log_success "All dependencies available" ;;
  mounted ← call_is_mounted mountpoint ;
  if negb mounted then
    log_error ("Mountpoint not found or not mounted: " +:+ mountpoint) ;;
    log_info "Connect your Shokz XTRAINERZ device and try again." ;;
    ret 1%Z
  else
  log_success ("Found mounted volume: " +:+ mountpoint) ;;
  let config_path := get_default_config_path env in
  (* everything from "Count files before" to the end of the function *)
  let after_config : M Z :=
    files_before ← count_music_files mountpoint ;
    log_info ("Music files on device: " +:+ pretty files_before) ;;
    log_step "Running beets import to organize and clean library" ;;
    (if args_dry_run args
     then log_info "DRY RUN MODE - no changes will be made" else ret tt) ;;
    success ← run_beets_import mountpoint (Some config_path) (args_dry_run args) ;
    if negb success then log_error "Beets import failed" ;; ret 1%Z else
    log_success "Beets import completed" ;;
    if args_dry_run args then
      log_info "Dry run complete - no fatsort performed" ;; ret 0%Z
    else
    log_step "Preparing to run fatsort" ;;
    resolved ← call_get_device_node mountpoint ;
    match resolved with
    | Raise e => log_error ("Failed to get device info: " +:+ str_of e) ;; ret 1%Z
    | Ok device_node =>
        let raw_device := get_raw_device_node device_node in
        log_info ("Device node: " +:+ device_node) ;;
        log_info ("Raw device: " +:+ raw_device) ;;
        log_step "Unmounting volume" ;;
        unmounted ← call_unmount_volume mountpoint ;
        match unmounted with
        | Raise e => log_error (str_of e) ;; ret 1%Z
        | Ok _ =>
            log_success "Volume unmounted" ;;
            log_step "Running fatsort to optimize playback order" ;;
            log_info "This may take a moment and requires sudo access..." ;;
            sorted ← call_run_fatsort raw_device true ;
            match sorted with
            | Raise e =>
                log_error ("Fatsort failed: " +:+ fatsort_message e) ;;
                (* try: mount_volume(device_node) except DiskutilError: pass *)
                _ ← call_mount_volume device_node ;
                ret 1%Z
            | Ok _ =>
                log_success "Fatsort completed" ;;
                log_step "Remounting volume" ;;
                remounted ← call_mount_volume device_node ;
                match remounted with
                | Raise e =>
                    log_error ("Failed to remount: " +:+ str_of e) ;;
                    log_info "You may need to manually remount or reconnect the device." ;;
                    ret 1%Z
                | Ok _ =>
                    log_success ("Volume remounted at " +:+ mountpoint) ;;
                    files_after ← count_music_files mountpoint ;
                    emit (Summary mountpoint device_node files_after) ;;
                    ret 0%Z
                end
            end
        end
    end in
  valid ← call_verify_beets_config config_path ;
  if negb valid then
    log_info ("No valid beets config found at " +:+ config_path) ;;
    log_info "Creating default configuration..." ;;
    created ← call_create_beets_config config_path mountpoint (args_bitrate args) ;
    match created with
    | Ok _ => log_success ("Config created: " +:+ config_path) ;; after_config
    | Raise e => log_error ("Failed to create config: " +:+ e) ;; ret 1%Z
    end
  else
    log_success ("Using config: " +:+ config_path) ;; after_config.

End Session.

(** One whole session, from an empty history. *)
Definition exit_code (env : Env) (args : Namespace) : Z :=
  fst (sync_shokz env args []).

Definition trace (env : Env) (args : Namespace) : list event :=
  snd (sync_shokz env args []).

(** ** Vocabulary for the properties of a session *)

Definition is_resolution (e : event) : bool :=
  match e with GetDeviceNode _ _ => true | _ => false end.

Definition is_unmount (e : event) : bool :=
  match e with UnmountVolume _ _ => true | _ => false end.

Definition is_reorder (e : event) : bool :=
  match e with RunFatsort _ _ _ => true | _ => false end.

Definition is_mount (e : event) : bool :=
  match e with MountVolume _ _ => true | _ => false end.

Definition is_import (e : event) : bool :=
  match e with BeetsImport _ _ => true | _ => false end.

Definition dependencies_verified (e : event) : bool :=
  match e with VerifyDependencies _ r => r | _ => false end.

Definition found_mounted (e : event) : bool :=
  match e with IsMounted _ r => r | _ => false end.

Definition config_ready (e : event) : bool :=
  match e with
  | VerifyBeetsConfig _ r => r
  | CreateBeetsConfig _ _ _ r => is_ok r
  | _ => false
  end.

Definition import_succeeded (e : event) : bool :=
  match e with BeetsImport _ (BeetReturned code) => (code =? 0)%Z | _ => false end.

Definition unmount_succeeded (e : event) : bool :=
  match e with UnmountVolume _ r => is_ok r | _ => false end.

Definition reorder_failed (e : event) : bool :=
  match e with RunFatsort _ _ r => negb (is_ok r) | _ => false end.

Definition is_error_log (e : event) : bool :=
  match e with Log Error _ => true | _ => false end.

(** How many events of a trace satisfy [f]. *)
Definition count (f : event -> bool) (tr : list event) : nat :=
  length (List.filter f tr).

(** [P] holds at every position of a trace, of the events before it, the
    event there and the events after it. *)
Fixpoint each_position (P : list event -> event -> list event -> bool)
    (before tr : list event) : bool :=
  match tr with
  | [] => true
  | e :: tr' => P before e tr' && each_position P (before ++ [e]) tr'
  end.

(** The ordering discipline of a session, at one position. *)
Definition ordering_ok (pre : list event) (e : event) (post : list event) : bool :=
  implb (is_reorder e)
        (existsb unmount_succeeded pre && negb (existsb is_mount pre))
  && implb (is_import e)
           (existsb found_mounted pre && negb (existsb is_unmount pre))
  && implb (is_unmount e)
           ((count is_resolution pre =? 1) && (count is_resolution post =? 0))
  && implb (is_resolution e)
           ((count is_resolution pre =? 0) && (count is_resolution post =? 0)
            && negb (existsb is_unmount pre)).

(** ** Concrete sessions

    An environment in which every tool is installed, the volume is
    mounted and a valid configuration exists; the four processes that
    matter are given as arguments. *)

Definition completed (code : Z) (out err : string) : CompletedProcess :=
  {| returncode := code; stdout := out; stderr := err |}.

Definition scripted_env (unmount : CompletedProcess) (sort : fatsort_run)
    (mount : CompletedProcess) (import : beet_run) : Env :=
  {| shutil_which := fun _ _ => true;
     subprocess_check := fun _ _ => CheckReturned;
     os_path_exists := fun _ _ => true;
     subprocess_diskutil := fun _ cmd =>
       match cmd with
       | [_; verb; _] =>
           if decide (verb = "info") then completed 0 SAMPLE_DISKUTIL_OUTPUT ""
           else if decide (verb = "unmount") then unmount
           else mount
       | _ => completed 1 "" "usage"
       end;
     subprocess_fatsort := fun _ _ => sort;
     subprocess_beet := fun _ _ => import;
     os_walk_music := fun _ _ => 12;
     get_default_config_path := "/Users/me/.config/beets/config.yaml";
     verify_beets_config := fun _ _ => true;
     create_beets_config := fun _ p _ _ => Ok p |}.

Definition unmounted_ok : CompletedProcess :=
  completed 0 "Volume XTRAINERZ on disk4s1 unmounted" "".

Definition mounted_ok : CompletedProcess :=
  completed 0 "Volume XTRAINERZ on /dev/disk4s1 mounted" "".

Definition mount_refused : CompletedProcess :=
  completed 1 "" "Volume on disk4s1 failed to mount".

Definition fatsort_failed : fatsort_run :=
  FatsortRan (completed 1 "" "Failed to open device").

Definition happy_env : Env :=
  scripted_env unmounted_ok (FatsortRan (completed 0 "" "")) mounted_ok
               (BeetReturned 0).

(** The reorder fails and so does the remount that follows it. *)
Definition stuck_env : Env :=
  scripted_env unmounted_ok fatsort_failed mount_refused (BeetReturned 0).

Definition default_args (dry_run : bool) : Namespace :=
  {| args_mountpoint := "/Volumes/XTRAINERZ"; args_bitrate := "96k";
     args_no_convert := false; args_dry_run := dry_run;
     args_verbose := false |}.

(** ** More vocabulary: the entries of a disk-info text *)

(** What one line of the text puts into the mapping of
    [get_mount_info]: nothing without a colon, else the trimmed text
    before the first colon and the trimmed text after it. *)
Definition line_entry (line : string) : option (string * string) :=
  let line := Str.strip line in
  if Str.contains ":" line then
    let '(key, value) := Str.split_once ":" line in
    Some (Str.strip key, Str.strip value)
  else None.

(** The value of the last of [lines] that has the key [k]. *)
Fixpoint last_entry (k : string) (lines : list string) : option string :=
  match lines with
  | [] => None
  | l :: ls =>
      match last_entry k ls with
      | Some v => Some v
      | None =>
          match line_entry l with
          | Some (k', v) => if decide (k' = k) then Some v else None
          | None => None
          end
      end
  end.

(** A text that does not start with white space. *)
Definition no_leading_space (s : string) : bool :=
  match s with
  | EmptyString => true
  | String c _ => negb (Str.is_space c)
  end.

(** ** More vocabulary for sessions *)

Definition is_log (e : event) : bool :=
  match e with Log _ _ => true | _ => false end.

Definition is_create (e : event) : bool :=
  match e with CreateBeetsConfig _ _ _ _ => true | _ => false end.

Definition is_summary (e : event) : bool :=
  match e with Summary _ _ _ => true | _ => false end.

Definition config_rejected (e : event) : bool :=
  match e with VerifyBeetsConfig _ r => negb r | _ => false end.

Definition resolution_succeeded (e : event) : bool :=
  match e with GetDeviceNode _ r => is_ok r | _ => false end.

Definition unmount_failed (e : event) : bool :=
  match e with UnmountVolume _ r => negb (is_ok r) | _ => false end.

Definition reorder_succeeded (e : event) : bool :=
  match e with RunFatsort _ _ r => is_ok r | _ => false end.

Definition mount_succeeded (e : event) : bool :=
  match e with MountVolume _ r => is_ok r | _ => false end.

Definition mount_failed (e : event) : bool :=
  match e with MountVolume _ r => negb (is_ok r) | _ => false end.

(** The four calls that work on the device node: its resolution, the
    unmount, the reorder and the mount. *)
Definition touches_device (e : event) : bool :=
  is_resolution e || is_unmount e || is_reorder e || is_mount e.

(** The step discipline of a session, at one position: what must have
    happened before each call of a collaborator. *)
Definition stage_ok (dry_run : bool) (pre : list event) (e : event)
    (post : list event) : bool :=
  match e with
  | Log _ _ => true
  | VerifyDependencies _ _ => forallb is_log pre
  | IsMounted _ _ => existsb dependencies_verified pre
  | VerifyBeetsConfig _ _ => existsb found_mounted pre
  | CreateBeetsConfig _ _ _ _ =>
      existsb config_rejected pre && negb (existsb is_create pre)
  | CountMusicFiles _ _ => existsb config_ready pre
  | BeetsImport _ _ => existsb config_ready pre && negb (existsb is_import pre)
  | GetDeviceNode _ _ => existsb import_succeeded pre && negb dry_run
  | UnmountVolume _ _ =>
      existsb resolution_succeeded pre && negb (existsb is_unmount pre)
  | RunFatsort _ _ _ =>
      existsb unmount_succeeded pre && negb (existsb is_reorder pre)
  | MountVolume _ _ => existsb is_reorder pre && negb (existsb is_mount pre)
  | Summary _ _ _ =>
      existsb mount_succeeded pre && existsb reorder_succeeded pre
      && match post with [] => true | _ :: _ => false end
  end.

(** What the exit code and the trace of a whole session have to do with
    each other. *)
Definition outcome_ok (dry_run : bool) (code : Z) (tr : list event) : bool :=
  ((code =? 0)%Z || (code =? 1)%Z)
  && Bool.eqb (code =? 0)%Z
       (if dry_run then existsb import_succeeded tr else existsb is_summary tr)
  && implb dry_run (negb (existsb touches_device tr))
  && implb (existsb touches_device tr) (existsb import_succeeded tr)
  && implb (existsb config_rejected tr) (existsb is_create tr)
  && implb (existsb unmount_succeeded tr)
       ((count is_mount tr =? 1) && existsb is_reorder tr)
  && implb (existsb unmount_failed tr)
       (negb (existsb is_reorder tr) && negb (existsb is_mount tr)
        && (code =? 1)%Z)
  && implb (existsb reorder_succeeded tr && existsb mount_failed tr)
       ((code =? 1)%Z && (count is_unmount tr =? 1)
        && (count is_reorder tr =? 1) && (count is_mount tr =? 1)
        && (count is_error_log tr =? 1))
  && implb (code =? 0)%Z (negb (existsb is_error_log tr))
  && implb (code =? 1)%Z
       (negb (existsb dependencies_verified tr) || existsb is_error_log tr).

(** What a session passes to its collaborators, for a call [e] of the
    trace [tr] of the session of [args] in [env]. *)
Definition call_ok (env : Env) (args : Namespace) (tr : list event) (e : event)
  : Prop :=
  let mountpoint := args_mountpoint args in
  let config_path := get_default_config_path env in
  match e with
  | VerifyDependencies v _ => v = args_verbose args
  | IsMounted m _ | CountMusicFiles m _ | GetDeviceNode m _
  | UnmountVolume m _ => m = mountpoint
  | VerifyBeetsConfig p _ => p = config_path
  | CreateBeetsConfig p m b _ =>
      p = config_path /\ m = mountpoint /\ b = args_bitrate args
  | BeetsImport cmd _ =>
      cmd = ["beet"; "-c"; config_path; "import"] ++
            (if args_dry_run args then ["--pretend"] else []) ++
            ["--quiet"; mountpoint]
  | RunFatsort d use_sudo _ =>
      use_sudo = true /\
      exists node, In (GetDeviceNode mountpoint (Ok node)) tr /\
                   d = get_raw_device_node node
  | MountVolume d _ => In (GetDeviceNode mountpoint (Ok d)) tr
  | Summary m d _ => m = mountpoint /\ In (GetDeviceNode mountpoint (Ok d)) tr
  | Log _ _ => True
  end.

(** What a session logs about a call [e] that failed. *)
Definition report_ok (tr : list event) (e : event) : Prop :=
  match e with
  | IsMounted m false =>
      In (Log Error ("Mountpoint not found or not mounted: " +:+ m)) tr
  | CreateBeetsConfig _ _ _ (Raise text) =>
      In (Log Error ("Failed to create config: " +:+ text)) tr
  | BeetsImport _ (BeetReturned code) =>
      (code =? 0)%Z = false -> In (Log Error "Beets import failed") tr
  | BeetsImport _ BeetNotFound =>
      In (Log Error "beet command not found") tr /\
      In (Log Error "Beets import failed") tr
  | BeetsImport _ (BeetException text) =>
      In (Log Error ("Failed to run beets: " +:+ text)) tr /\
      In (Log Error "Beets import failed") tr
  | GetDeviceNode _ (Raise err) =>
      In (Log Error ("Failed to get device info: " +:+ str_of err)) tr
  | UnmountVolume _ (Raise err) => In (Log Error (str_of err)) tr
  | RunFatsort _ _ (Raise err) =>
      In (Log Error ("Fatsort failed: " +:+ fatsort_message err)) tr
  | MountVolume _ (Raise err) =>
      existsb reorder_succeeded tr = true ->
      In (Log Error ("Failed to remount: " +:+ str_of err)) tr
  | _ => True
  end.

(** Sessions in which the unmount is refused, and in which the mount
    after a successful reorder is. *)
Definition unmount_refused_env : Env :=
  scripted_env (completed 1 "" "Unmount failed: dissented")
               (FatsortRan (completed 0 "" "")) mounted_ok (BeetReturned 0).

Definition remount_refused_env : Env :=
  scripted_env unmounted_ok (FatsortRan (completed 0 "" "")) mount_refused
               (BeetReturned 0).

(** ** cli.py: [init_config]

    The arguments of the [init-config] command, and the handler. The
    answer of [config_path.exists()] comes from the outside world like
    the others; the two hints that the handler prints are not part of
    the trace. *)
Record InitNamespace : Type := {
  init_mountpoint : string;
  init_bitrate : string;
  init_force : bool
}.

Definition init_config (env : Env) (config_exists : list event -> bool)
    (args : InitNamespace) : M Z :=
  let config_path := get_default_config_path env in
  present ← (fun h => (config_exists h, h)) ;
  if present && negb (init_force args) then
    log_error ("Config already exists: " +:+ config_path) ;;
    ret 1%Z
  else
  log_step "Creating beets configuration" ;;
  created ← call_create_beets_config env config_path
              (init_mountpoint args) (init_bitrate args) ;
  match created with
  | Ok created_path =>
      log_success ("Config created: " +:+ created_path) ;;
      ret 0%Z
  | Raise e =>
      log_error ("Failed to create config: " +:+ e) ;;
      ret 1%Z
  end.

(** ** Exceptions that no handler names

    The definitions above give every call of [subprocess.run] the
    outcomes that the code around it handles.  [subprocess.run] can
    raise more than that: an [OSError] when the program cannot be
    executed, a [UnicodeDecodeError] when [text=True] and the output is
    not text.  Module [Uncaught] embeds the same functions once more
    with these outcomes: a call either yields its value or raises an
    exception, each [except] clause catches the class it names and no
    other, and an exception that no clause catches leaves the function
    and, in the end, [sync_shokz]. *)

Module Uncaught.

(** The exceptions, each with the text [str(e)] of it.  All are
    subclasses of [Exception]; [FileNotFoundError] and [PermissionError]
    are the subclasses of [OSError] that a handler names or that the
    start of a process typically raises, [OSError] stands for the rest
    of that class.  The [CalledProcessError] of [check=True] is written,
    as above, as the test of the exit code. *)
Inductive exception : Type :=
| TimeoutExpired (text : string)
| FileNotFoundError (text : string)
| PermissionError (text : string)
| OSError (text : string)
| UnicodeDecodeError (text : string)
| RaisedDiskutilError (e : DiskutilError)
| RaisedFatsortError (e : FatsortError).

Definition str (x : exception) : string :=
  match x with
  | TimeoutExpired text | FileNotFoundError text | PermissionError text
  | OSError text | UnicodeDecodeError text => text
  | RaisedDiskutilError e => str_of e
  | RaisedFatsortError e => fatsort_message e
  end.

(** The tests that the [except] clauses make: [except DiskutilError as e]
    catches [x] when [as_DiskutilError x] is [Some e]. *)
Definition as_DiskutilError (x : exception) : option DiskutilError :=
  match x with RaisedDiskutilError e => Some e | _ => None end.

Definition as_FatsortError (x : exception) : option FatsortError :=
  match x with RaisedFatsortError e => Some e | _ => None end.

Definition is_FileNotFoundError (x : exception) : bool :=
  match x with FileNotFoundError _ => true | _ => false end.

Definition is_TimeoutExpired (x : exception) : bool :=
  match x with TimeoutExpired _ => true | _ => false end.

(** The typed errors of the two utility modules, as exceptions. *)
Definition of_diskutil {A : Type} (r : result DiskutilError A)
  : result exception A :=
  match r with Ok a => Ok a | Raise e => Raise (RaisedDiskutilError e) end.

Definition of_fatsort {A : Type} (r : result FatsortError A)
  : result exception A :=
  match r with Ok a => Ok a | Raise e => Raise (RaisedFatsortError e) end.

(** *** diskutil_utils.py

    Each function takes what [subprocess.run] came to: the process that
    completed, or the exception raised instead. *)

Definition run_command (cmd : list string) (check : bool)
    (r : result exception CompletedProcess)
  : result exception CompletedProcess :=
  match r with
  | Ok p =>
      if check && negb (returncode p =? 0)%Z
      then Raise (RaisedDiskutilError
                    (MkDiskutilError
                       ("Command failed: " +:+ Str.join " " cmd +:+ nl +:+
                        stderr p)))
      else Ok p
  | Raise x => Raise x
  end.

Definition get_mount_info (mountpoint : string)
    (r : result exception CompletedProcess)
  : result exception (gmap string string) :=
  match run_command ["diskutil"; "info"; mountpoint] true r with
  | Raise x => Raise x
  | Ok result =>
      let info := parse_info (stdout result) in
      if decide (info = ∅)
      then Raise (RaisedDiskutilError
                    (MkDiskutilError
                       ("Could not get info for mountpoint: " +:+ mountpoint)))
      else Ok info
  end.

Definition get_device_node (mountpoint : string)
    (r : result exception CompletedProcess) : result exception string :=
  match get_mount_info mountpoint r with
  | Raise x => Raise x
  | Ok info =>
      match info !! "Device Node" with
      | None | Some EmptyString =>
          Raise (RaisedDiskutilError
                   (MkDiskutilError
                      ("Could not determine device node for " +:+ mountpoint)))
      | Some device_node => Ok device_node
      end
  end.

Definition unmount_volume (mountpoint : string)
    (r : result exception CompletedProcess) : result exception unit :=
  let attempt :=
    match run_command ["diskutil"; "unmount"; mountpoint] true r with
    | Raise x => Raise x
    | Ok result =>
        if negb (Str.contains "unmounted" (Str.lower (stdout result)))
        then Raise (RaisedDiskutilError
                      (MkDiskutilError
                         ("Unmount may have failed: " +:+ stdout result)))
        else Ok tt
    end in
  match attempt with
  | Ok _ => Ok tt
  | Raise x =>
      match as_DiskutilError x with
      | Some e =>
          if says_busy (str_of e)
          then Raise (RaisedDiskutilError
                        (MkDiskutilError (busy_message mountpoint)))
          else Raise x
      | None => Raise x
      end
  end.

Definition mount_volume (device_node : string)
    (r : result exception CompletedProcess) : result exception unit :=
  match run_command ["diskutil"; "mount"; device_node] true r with
  | Raise x => Raise x
  | Ok result =>
      if negb (Str.contains "mounted" (Str.lower (stdout result)))
      then Raise (RaisedDiskutilError
                    (MkDiskutilError
                       ("Mount may have failed: " +:+ stdout result)))
      else Ok tt
  end.

Definition is_mounted (mountpoint : string) (path_exists : bool)
    (r : result exception CompletedProcess) : result exception bool :=
  if negb path_exists then Ok false
  else match get_mount_info mountpoint r with
       | Ok info => Ok (bool_decide (info !! "Mounted" = Some "Yes"))
       | Raise x =>
           match as_DiskutilError x with
           | Some _ => Ok false
           | None => Raise x
           end
       end.

(** *** fatsort_utils.py *)

(** [run_fatsort], from the call of [subprocess.run(cmd, check=True)]
    on; the command is [fatsort_cmd device_node use_sudo]. *)
Definition run_fatsort (device_node : string) (use_sudo : bool)
    (r : result exception CompletedProcess) : result exception unit :=
  match r with
  | Ok p =>
      if (returncode p =? 0)%Z then Ok tt
      else
        let error_msg :=
          "fatsort failed with exit code " +:+ pretty (returncode p) in
        let error_msg :=
          match stderr p with
          | EmptyString => error_msg
          | _ => error_msg +:+ ":" +:+ nl +:+ stderr p
          end in
        Raise (RaisedFatsortError (MkFatsortError error_msg))
  | Raise x =>
      if is_FileNotFoundError x
      then Raise (RaisedFatsortError
                    (MkFatsortError
                       "fatsort command not found. Install it with: brew install fatsort"))
      else Raise x
  end.

(** *** dependencies.py *)

Section Dependencies.
Variable which : string -> bool.
Variable run_check : list string -> result exception CompletedProcess.

Definition verify_command_works (command : string) (check_cmd : list string)
  : result exception bool :=
  if negb (check_command_available which command) then Ok false
  else match run_check check_cmd with
       | Ok _ => Ok true
       | Raise x =>
           if is_TimeoutExpired x || is_FileNotFoundError x then Ok false
           else Raise x
       end.

(** The loop of [check_all_dependencies], over the commands still to
    check: the first exception ends it. *)
Fixpoint check_commands (commands : list (string * command_info))
  : result exception (list (string * bool)) :=
  match commands with
  | [] => Ok []
  | (cmd, info) :: commands' =>
      match verify_command_works cmd (check_cmd info) with
      | Raise x => Raise x
      | Ok available =>
          match check_commands commands' with
          | Raise x => Raise x
          | Ok results => Ok ((cmd, available) :: results)
          end
      end
  end.

Definition check_all_dependencies : result exception (list (string * bool)) :=
  check_commands REQUIRED_COMMANDS.

Definition verify_dependencies (verbose : bool) : result exception bool :=
  match check_all_dependencies with
  | Raise x => Raise x
  | Ok results =>
      let missing :=
        map fst (filter (fun '(_, available) => available = false) results) in
      match missing with
      | [] => Ok true
      | _ :: _ => Ok false
      end
  end.
End Dependencies.

(** *** cli.py *)

(** The events of a session: as above, but a call is recorded with its
    value or with the exception it raised, of whatever class. *)
Inductive event : Type :=
| Log (l : level) (message : string)
| VerifyDependencies (verbose : bool) (r : result exception bool)
| IsMounted (mountpoint : string) (r : result exception bool)
| VerifyBeetsConfig (config_path : string) (r : bool)
| CreateBeetsConfig (config_path mountpoint bitrate : string)
                    (r : result string string)
| CountMusicFiles (directory : string) (n : nat)
| BeetsImport (cmd : list string) (r : result exception CompletedProcess)
| GetDeviceNode (mountpoint : string) (r : result exception string)
| UnmountVolume (mountpoint : string) (r : result exception unit)
| RunFatsort (device_node : string) (use_sudo : bool)
             (r : result exception unit)
| MountVolume (device_node : string) (r : result exception unit)
| Summary (mountpoint device_node : string) (music_files : nat).

(** The environment: one [subprocess_run] answers for every process.
    The functions of [shokz_sync/beets_config.py] and the directory walk
    are taken as above. *)
Record Env : Type := {
  shutil_which : list event -> string -> bool;
  os_path_exists : list event -> string -> bool;
  subprocess_run :
    list event -> list string -> result exception CompletedProcess;
  os_walk_music : list event -> string -> nat;
  get_default_config_path : string;
  verify_beets_config : list event -> string -> bool;
  create_beets_config :
    list event -> string -> string -> string -> result string string
}.

(** Computations of a session: they read and extend the history, and
    end with a value or with an exception on its way out. *)
Definition M (A : Type) : Type :=
  list event -> result exception A * list event.

Definition ret {A : Type} (a : A) : M A := fun h => (Ok a, h).

Definition bind {A B : Type} (m : M A) (k : A -> M B) : M B :=
  fun h => match m h with
           | (Ok a, h') => k a h'
           | (Raise x, h') => (Raise x, h')
           end.

#[global] Instance M_ret : MRet M := @ret.
#[global] Instance M_bind : MBind M := fun A B k m => bind m k.

Definition raise {A : Type} (x : exception) : M A := fun h => (Raise x, h).

(** The body of a [try]: what it came to is handed to the [except]
    clauses, which are written as a [match] after it. *)
Definition catch {A : Type} (body : M A) : M (result exception A) :=
  fun h => let '(r, h') := body h in (Ok r, h').

Definition emit (e : event) : M unit := fun h => (Ok tt, h ++ [e]).

(** A call that can raise: it goes into the history with what it came
    to, and an exception continues on its way. *)
Definition perform {A : Type} (answer : list event -> result exception A)
    (record : result exception A -> event) : M A :=
  fun h => let r := answer h in (r, h ++ [record r]).

(** A call of a collaborator that is taken to return. *)
Definition ask {A : Type} (answer : list event -> A) (record : A -> event)
  : M A :=
  fun h => let a := answer h in (Ok a, h ++ [record a]).

Definition log_step (message : string) : M unit := emit (Log Step message).
Definition log_success (message : string) : M unit := emit (Log Success message).
Definition log_error (message : string) : M unit := emit (Log Error message).
Definition log_info (message : string) : M unit := emit (Log Info message).

Section Session.
Variable env : Env.

Definition call_verify_dependencies (verbose : bool) : M bool :=
  perform (fun h => verify_dependencies (shutil_which env h)
                      (subprocess_run env h) verbose)
          (VerifyDependencies verbose).

Definition call_is_mounted (mountpoint : string) : M bool :=
  perform (fun h => is_mounted mountpoint (os_path_exists env h mountpoint)
                      (subprocess_run env h ["diskutil"; "info"; mountpoint]))
          (IsMounted mountpoint).

Definition call_verify_beets_config (config_path : string) : M bool :=
  ask (fun h => verify_beets_config env h config_path)
      (VerifyBeetsConfig config_path).

Definition call_create_beets_config (config_path mountpoint bitrate : string)
  : M (result string string) :=
  ask (fun h => create_beets_config env h config_path mountpoint bitrate)
      (CreateBeetsConfig config_path mountpoint bitrate).

Definition call_get_device_node (mountpoint : string) : M string :=
  perform (fun h => get_device_node mountpoint
                      (subprocess_run env h ["diskutil"; "info"; mountpoint]))
          (GetDeviceNode mountpoint).

Definition call_unmount_volume (mountpoint : string) : M unit :=
  perform (fun h => unmount_volume mountpoint
                      (subprocess_run env h ["diskutil"; "unmount"; mountpoint]))
          (UnmountVolume mountpoint).

Definition call_run_fatsort (device_node : string) (use_sudo : bool) : M unit :=
  perform (fun h => run_fatsort device_node use_sudo
                      (subprocess_run env h (fatsort_cmd device_node use_sudo)))
          (RunFatsort device_node use_sudo).

Definition call_mount_volume (device_node : string) : M unit :=
  perform (fun h => mount_volume device_node
                      (subprocess_run env h ["diskutil"; "mount"; device_node]))
          (MountVolume device_node).

Definition count_music_files (directory : string) : M nat :=
  ask (fun h => os_walk_music env h directory) (CountMusicFiles directory).

Definition run_beets_import (mountpoint : string) (config_path : option string)
    (dry_run : bool) : M bool :=
  let cmd := ["beet"] in
  let cmd := match config_path with
             | Some p => cmd ++ ["-c"; p]
             | None => cmd
             end in
  let cmd := cmd ++ ["import"] in
  let cmd := if dry_run then cmd ++ ["--pretend"] else cmd in
  let cmd := cmd ++ ["--quiet"] in
  let cmd := cmd ++ [mountpoint] in
  log_info ("Running: " +:+ Str.join " " cmd) ;;
  ran ← catch (result ← perform (fun h => subprocess_run env h cmd)
                                (BeetsImport cmd) ;
               ret (returncode result =? 0)%Z) ;
  match ran with
  | Ok success => ret success
  | Raise x =>
      if is_FileNotFoundError x
      then log_error "beet command not found" ;; ret false
      else (* except Exception as e *)
           log_error ("Failed to run beets: " +:+ str x) ;; ret false
  end.

Definition sync_shokz (args : Namespace) : M Z :=
  let mountpoint := args_mountpoint args in
  log_step "Checking dependencies" ;;
  deps ← call_verify_dependencies (args_verbose args) ;
  if negb deps then ret 1%Z else
  log_success "All dependencies available" ;;
  mounted ← call_is_mounted mountpoint ;
  if negb mounted then
    log_error ("Mountpoint not found or not mounted: " +:+ mountpoint) ;;
    log_info "Connect your Shokz XTRAINERZ device and try again." ;;
    ret 1%Z
  else
  log_success ("Found mounted volume: " +:+ mountpoint) ;;
  let config_path := get_default_config_path env in
  (* everything from "Count files before" to the end of the function *)
  let after_config : M Z :=
    files_before ← count_music_files mountpoint ;
    log_info ("Music files on device: " +:+ pretty files_before) ;;
    log_step "Running beets import to organize and clean library" ;;
    (if args_dry_run args
     then log_info "DRY RUN MODE - no changes will be made" else ret tt) ;;
    success ← run_beets_import mountpoint (Some config_path) (args_dry_run args) ;
    if negb success then log_error "Beets import failed" ;; ret 1%Z else
    log_success "Beets import completed" ;;
    if args_dry_run args then
      log_info "Dry run complete - no fatsort performed" ;; ret 0%Z
    else
    log_step "Preparing to run fatsort" ;;
    resolved ← catch (device_node ← call_get_device_node mountpoint ;
                      let raw_device := get_raw_device_node device_node in
                      log_info ("Device node: " +:+ device_node) ;;
                      log_info ("Raw device: " +:+ raw_device) ;;
                      ret (device_node, raw_device)) ;
    match resolved with
    | Raise x =>
        match as_DiskutilError x with
        | Some e =>
            log_error ("Failed to get device info: " +:+ str_of e) ;; ret 1%Z
        | None => raise x
        end
    | Ok (device_node, raw_device) =>
        log_step "Unmounting volume" ;;
        unmounted ← catch (call_unmount_volume mountpoint ;;
                           log_success "Volume unmounted") ;
        match unmounted with
        | Raise x =>
            match as_DiskutilError x with
            | Some e => log_error (str_of e) ;; ret 1%Z
            | None => raise x
            end
        | Ok _ =>
            log_step "Running fatsort to optimize playback order" ;;
            log_info "This may take a moment and requires sudo access..." ;;
            sorted ← catch (call_run_fatsort raw_device true ;;
                            log_success "Fatsort completed") ;
            match sorted with
            | Raise x =>
                match as_FatsortError x with
                | Some e =>
                    log_error ("Fatsort failed: " +:+ fatsort_message e) ;;
                    (* Try to remount anyway *)
                    again ← catch (call_mount_volume device_node) ;
                    match again with
                    | Ok _ => ret 1%Z
                    | Raise y =>
                        match as_DiskutilError y with
                        | Some _ => (* pass *) ret 1%Z
                        | None => raise y
                        end
                    end
                | None => raise x
                end
            | Ok _ =>
                log_step "Remounting volume" ;;
                remounted ← catch (call_mount_volume device_node ;;
                                   log_success ("Volume remounted at " +:+ mountpoint)) ;
                match remounted with
                | Raise x =>
                    match as_DiskutilError x with
                    | Some e =>
                        log_error ("Failed to remount: " +:+ str_of e) ;;
                        log_info "You may need to manually remount or reconnect the device." ;;
                        ret 1%Z
                    | None => raise x
                    end
                | Ok _ =>
                    files_after ← count_music_files mountpoint ;
                    emit (Summary mountpoint device_node files_after) ;;
                    ret 0%Z
                end
            end
        end
    end in
  valid ← call_verify_beets_config config_path ;
  if negb valid then
    log_info ("No valid beets config found at " +:+ config_path) ;;
    log_info "Creating default configuration..." ;;
    created ← call_create_beets_config config_path mountpoint (args_bitrate args) ;
    match created with
    | Ok _ => log_success ("Config created: " +:+ config_path) ;; after_config
    | Raise e => log_error ("Failed to create config: " +:+ e) ;; ret 1%Z
    end
  else
    log_success ("Using config: " +:+ config_path) ;; after_config.

End Session.

(** One whole session, from an empty history: the exit code returned or
    the exception that left [sync_shokz], and what happened. *)
Definition outcome (env : Env) (args : Namespace) : result exception Z :=
  fst (sync_shokz env args []).

Definition trace (env : Env) (args : Namespace) : list event :=
  snd (sync_shokz env args []).

(** *** Vocabulary *)

Definition is_resolution (e : event) : bool :=
  match e with GetDeviceNode _ _ => true | _ => false end.

Definition is_reorder (e : event) : bool :=
  match e with RunFatsort _ _ _ => true | _ => false end.

Definition is_mount (e : event) : bool :=
  match e with MountVolume _ _ => true | _ => false end.

Definition is_error_log (e : event) : bool :=
  match e with Log Error _ => true | _ => false end.

Definition unmount_succeeded (e : event) : bool :=
  match e with UnmountVolume _ r => is_ok r | _ => false end.

(** The reorder raised its [FatsortError]. *)
Definition reorder_failed (e : event) : bool :=
  match e with
  | RunFatsort _ _ (Raise x) =>
      match as_FatsortError x with Some _ => true | None => false end
  | _ => false
  end.

Definition count (f : event -> bool) (tr : list event) : nat :=
  length (List.filter f tr).

(** *** Concrete sessions

    Every tool is installed and checks out, the volume is mounted, a
    valid configuration exists and the import goes through; what the
    unmount, the reorder and the mount come to is given. *)
Definition scripted_env (unmount sort mount : result exception CompletedProcess)
  : Env :=
  {| shutil_which := fun _ _ => true;
     os_path_exists := fun _ _ => true;
     subprocess_run := fun _ cmd =>
       match cmd with
       | [tool; verb; _] =>
           if decide (tool = "diskutil") then
             if decide (verb = "info")
             then Ok (completed 0 SAMPLE_DISKUTIL_OUTPUT "")
             else if decide (verb = "unmount") then unmount
             else mount
           else Ok (completed 0 "" "")
       | [_; "fatsort"; "-o"; "a"; _] => sort
       | _ => Ok (completed 0 "" "")
       end;
     os_walk_music := fun _ _ => 12;
     get_default_config_path := "/Users/me/.config/beets/config.yaml";
     verify_beets_config := fun _ _ => true;
     create_beets_config := fun _ p _ _ => Ok p |}.

(** The reorder raises its [FatsortError] and the mount after it cannot
    start its process. *)
Definition remount_raises_env : Env :=
  scripted_env (Ok unmounted_ok)
               (Ok (completed 1 "" "Failed to open device"))
               (Raise (OSError "[Errno 24] Too many open files")).

(** The output of the reorder is not text. *)
Definition reorder_raises_env : Env :=
  scripted_env (Ok unmounted_ok)
               (Raise (UnicodeDecodeError
                         "'utf-8' codec can't decode byte 0xe9 in position 17: invalid continuation byte"))
               (Ok mounted_ok).

(** The reorder fails and the mount after it is refused. *)
Definition stuck_env : Env :=
  scripted_env (Ok unmounted_ok)
               (Ok (completed 1 "" "Failed to open device"))
               (Ok mount_refused).

End Uncaught.
Example lower_ex : Str.lower "Volume XTRAINERZ on disk4s1 Unmounted" = "volume xtrainerz on disk4s1 unmounted".
Proof. reflexivity. Qed.
Example splitlines_ex : Str.splitlines ("a" +:+ String "010" ("" +:+ String "013" (String "010" "b c" +:+ String "010" ""))) = ["a"; ""; "b c"].
Proof. reflexivity. Qed.
Example strip_ex : Str.strip "   Device Node:   x  " = "Device Node:   x".
Proof. reflexivity. Qed.
Example replace_ex : Str.replace "/dev/disk" "/dev/rdisk" "/dev/disk1/dev/disk2" = "/dev/rdisk1/dev/rdisk2".
Proof. reflexivity. Qed.
Example replace_overlap_ex : Str.replace "aa" "b" "aaa" = "ba".
Proof. reflexivity. Qed.
Example replace_empty_ex : Str.replace "" "-" "abc" = "-a-b-c-".
Proof. reflexivity. Qed.
Example replace_first_ex : Str.replace_first "/dev/disk" "/dev/rdisk" "/dev/disk1/dev/disk2" = "/dev/rdisk1/dev/disk2".
Proof. reflexivity. Qed.
Example split_ex : Str.split_once ":" "a: b:c" = ("a", " b:c").
Proof. reflexivity. Qed.
Example test_device_detection :
  get_device_node "/Volumes/XTRAINERZ"
    {| returncode := 0; stdout := SAMPLE_DISKUTIL_OUTPUT; stderr := "" |}
  = Ok "/dev/disk4s1".
Proof. vm_compute. reflexivity. Qed.
Example test_missing_device :
  is_ok (get_device_node "/Volumes/NONEXISTENT"
           {| returncode := 0; stdout := ""; stderr := "" |}) = false.
Proof. vm_compute. reflexivity. Qed.
Example test_fatsort_cmd :
  fatsort_cmd "/dev/disk4s1" true = ["sudo"; "fatsort"; "-o"; "a"; "/dev/rdisk4s1"].
Proof. reflexivity. Qed.

(** The cases of [test_raw_device_conversion]. *)
Example test_raw_device_conversion :
  get_raw_device_node "/dev/disk4s1" = "/dev/rdisk4s1" /\
  get_raw_device_node "/dev/disk10s1" = "/dev/rdisk10s1" /\
  get_raw_device_node "/dev/rdisk4s1" = "/dev/rdisk4s1".
Proof. repeat split. Qed.

(** The two end-to-end scenarios of the specification, and a remount
    that fails after a successful reorder. *)
Example end_to_end_sync :
  exit_code happy_env (default_args false) = 0%Z /\
  List.last (trace happy_env (default_args false)) (Log Info "")
  = Summary "/Volumes/XTRAINERZ" "/dev/disk4s1" 12.
Proof. split; vm_compute; reflexivity. Qed.

Example end_to_end_dry_run :
  exit_code happy_env (default_args true) = 0%Z /\
  List.filter is_import (trace happy_env (default_args true))
  = [BeetsImport ["beet"; "-c"; "/Users/me/.config/beets/config.yaml"; "import";
                  "--pretend"; "--quiet"; "/Volumes/XTRAINERZ"]
                 (BeetReturned 0)].
Proof. split; vm_compute; reflexivity. Qed.

Example remount_failure_after_reorder :
  let env := scripted_env unmounted_ok (FatsortRan (completed 0 "" ""))
               mount_refused (BeetReturned 0) in
  exit_code env (default_args false) = 1%Z /\
  count is_reorder (trace env (default_args false)) = 1 /\
  count is_unmount (trace env (default_args false)) = 1 /\
  List.filter is_error_log (trace env (default_args false))
  = [Log Error ("Failed to remount: Command failed: diskutil mount /dev/disk4s1"
                +:+ nl +:+ "Volume on disk4s1 failed to mount")].
Proof. repeat split; vm_compute; reflexivity. Qed.

(** ** Facts about the string operations *)

Lemma startswith_app (p s : string) :
  Str.startswith p s = true <-> exists t, s = p +:+ t.
Proof.
  revert s. induction p as [|a p IH]; intros s; simpl.
  - split; [intros _; exists s; reflexivity | reflexivity].
  - destruct s as [|b s]; simpl.
    + split; [discriminate | intros [t Ht]; discriminate Ht].
    + rewrite andb_true_iff, Ascii.eqb_eq, IH. split.
      * intros [-> [t ->]]. exists t. reflexivity.
      * intros [t Ht]. injection Ht as -> ->. split; [reflexivity | exists t; reflexivity].
Qed.

Lemma contains_cons (p : string) (c : ascii) (s : string) :
  Str.contains p (String c s) = Str.startswith p (String c s) || Str.contains p s.
Proof. reflexivity. Qed.

Lemma contains_tail (p : string) (c : ascii) (s : string) :
  Str.contains p s = true -> Str.contains p (String c s) = true.
Proof. intros H. rewrite contains_cons, H. apply orb_true_r. Qed.

Lemma replace_scan_drop (old new : string) (k : nat) (s : string) :
  Str.replace_scan k old new s = Str.replace_scan 0 old new (Str.drop k s).
Proof.
  revert k. induction s as [|c s IH]; intros [|k]; try reflexivity.
  simpl. apply IH.
Qed.

Lemma length_append (s t : string) :
  String.length (s +:+ t) = String.length s + String.length t.
Proof. induction s as [|a s IH]; simpl; [reflexivity | rewrite IH; reflexivity]. Qed.

(** The scan, read without its counter: at an occurrence of a non-empty
    [old] the result is [new] followed by the replacement in what comes
    after the occurrence; elsewhere the character is kept. *)
Lemma replace_hit (old new s : string) :
  old <> "" -> Str.startswith old s = true ->
  Str.replace old new s
  = new +:+ Str.replace old new (Str.drop (String.length old) s).
Proof.
  intros Hold H. destruct old as [|a old]; [contradiction|].
  destruct s as [|c s]; [discriminate H|].
  unfold Str.replace.
  change (Str.replace_scan 0 (String a old) new (String c s))
    with (if Str.startswith (String a old) (String c s)
          then new +:+ Str.replace_scan (String.length (String a old) - 1)
                         (String a old) new s
          else String c (Str.replace_scan 0 (String a old) new s)).
  rewrite H, replace_scan_drop.
  replace (String.length (String a old) - 1) with (String.length old)
    by (simpl; lia).
  reflexivity.
Qed.

Lemma replace_miss (old new : string) (c : ascii) (s : string) :
  old <> "" -> Str.startswith old (String c s) = false ->
  Str.replace old new (String c s) = String c (Str.replace old new s).
Proof.
  intros Hold H. destruct old as [|a old]; [contradiction|].
  unfold Str.replace.
  change (Str.replace_scan 0 (String a old) new (String c s))
    with (if Str.startswith (String a old) (String c s)
          then new +:+ Str.replace_scan (String.length (String a old) - 1)
                         (String a old) new s
          else String c (Str.replace_scan 0 (String a old) new s)).
  rewrite H. reflexivity.
Qed.

(** *** The equations of the raw-device derivation *)

Lemma raw_hit (t : string) :
  get_raw_device_node ("/dev/disk" +:+ t) = "/dev/rdisk" +:+ get_raw_device_node t.
Proof. reflexivity. Qed.

Lemma raw_miss (c : ascii) (s : string) :
  Str.startswith "/dev/disk" (String c s) = false ->
  get_raw_device_node (String c s) = String c (get_raw_device_node s).
Proof. intros H. apply replace_miss; [discriminate | exact H]. Qed.

(** Induction along the scan: the empty text, an occurrence at the
    cursor, any other character. *)
Lemma disk_scan_ind (Q : string -> Prop) :
  Q "" ->
  (forall t, Q t -> Q ("/dev/disk" +:+ t)) ->
  (forall c s, Str.startswith "/dev/disk" (String c s) = false -> Q s -> Q (String c s)) ->
  forall s, Q s.
Proof.
  intros Hnil Hhit Hmiss s.
  remember (String.length s) as n eqn:Hn.
  revert s Hn. induction n as [n IH] using lt_wf_ind. intros s Hn.
  destruct s as [|c s]; [exact Hnil|].
  destruct (Str.startswith "/dev/disk" (String c s)) eqn:E.
  - apply startswith_app in E as [t Ht]. rewrite Ht. apply Hhit.
    apply (IH (String.length t)); [|reflexivity].
    rewrite Hn, Ht, length_append. simpl. lia.
  - apply Hmiss; [exact E|]. apply (IH (String.length s)); [|reflexivity].
    rewrite Hn. simpl. lia.
Qed.

(** The derived text starts with [a] followed by [w] only if the scan
    was at an occurrence, or the text itself starts with [a] and what
    is derived from its rest starts with [w]. *)
Lemma raw_startswith_cons (a : ascii) (w s : string) :
  Str.startswith (String a w) (get_raw_device_node s) = true ->
  Str.startswith "/dev/disk" s = true \/
  exists s', s = String a s' /\ Str.startswith w (get_raw_device_node s') = true.
Proof.
  intros H. destruct s as [|c s]; [discriminate H|].
  destruct (Str.startswith "/dev/disk" (String c s)) eqn:E; [left; reflexivity|].
  right. rewrite (raw_miss _ _ E) in H. simpl in H.
  apply andb_true_iff in H as [Hc Hw]. apply Ascii.eqb_eq in Hc as ->.
  exists s. split; [reflexivity | exact Hw].
Qed.

Ltac raw_peel H :=
  let Hp := fresh "Hp" in
  let t := fresh "t" in
  let s' := fresh "s" in
  let H' := fresh "H" in
  destruct (raw_startswith_cons _ _ _ H) as [Hp | (s' & -> & H')];
  [ apply startswith_app in Hp as [t ->]; rewrite raw_hit in H;
    try discriminate H
  | clear H; rename H' into H ].

(** No occurrence of the disk prefix is created by the derivation: the
    derived text starts with one only where the text did. *)
Lemma raw_startswith (s : string) :
  Str.startswith "/dev/disk" (get_raw_device_node s) = true ->
  Str.startswith "/dev/disk" s = true.
Proof.
  intros H.
  destruct (raw_startswith_cons _ _ _ H) as [Hp | (s1 & -> & H1)]; [exact Hp|].
  clear H. do 8 raw_peel H1. reflexivity.
Qed.

Lemma raw_has_no_disk (s : string) :
  Str.contains "/dev/disk" (get_raw_device_node s) = false.
Proof.
  induction s as [| t IH | c s E IH] using disk_scan_ind.
  - reflexivity.
  - rewrite raw_hit. exact IH.
  - rewrite (raw_miss _ _ E), contains_cons, IH, orb_false_r.
    rewrite <- (raw_miss _ _ E).
    destruct (Str.startswith "/dev/disk" (get_raw_device_node (String c s))) eqn:F;
      [|reflexivity].
    apply raw_startswith in F. congruence.
Qed.

Lemma raw_fixed (s : string) :
  Str.contains "/dev/disk" s = false -> get_raw_device_node s = s.
Proof.
  induction s as [|c s IH]; intros H; [reflexivity|].
  rewrite contains_cons in H. apply orb_false_iff in H as [H1 H2].
  rewrite (raw_miss _ _ H1), (IH H2). reflexivity.
Qed.

(** C4. Raw-device derivation is idempotent: deriving again from a
    derived node gives the same node, for every string. *)
Theorem get_raw_device_node_idempotent (x : string) :
  get_raw_device_node (get_raw_device_node x) = get_raw_device_node x.
Proof. apply raw_fixed, raw_has_no_disk. Qed.

(** The derivation, read along [str.find]. *)
Lemma raw_by_find (s : string) :
  get_raw_device_node s =
  match Str.find "/dev/disk" s with
  | None => s
  | Some i =>
      Str.take i s +:+ "/dev/rdisk" +:+
      get_raw_device_node (Str.drop (i + String.length "/dev/disk") s)
  end.
Proof.
  induction s as [|c s IH]; [reflexivity|].
  change (Str.find "/dev/disk" (String c s))
    with (if Str.startswith "/dev/disk" (String c s) then Some 0
          else S <$> Str.find "/dev/disk" s).
  destruct (Str.startswith "/dev/disk" (String c s)) eqn:E.
  - apply startswith_app in E as [t Ht]. rewrite Ht, raw_hit. reflexivity.
  - rewrite (raw_miss _ _ E), IH.
    destruct (Str.find "/dev/disk" s) as [i|]; reflexivity.
Qed.

(** Where the prefix occurs at most once, the derivation is the
    replacement of the first occurrence. *)
Lemma raw_single_occurrence (s : string) :
  (forall i, Str.find "/dev/disk" s = Some i ->
             Str.contains "/dev/disk"
               (Str.drop (i + String.length "/dev/disk") s) = false) ->
  get_raw_device_node s = Str.replace_first "/dev/disk" "/dev/rdisk" s.
Proof.
  intros H. rewrite raw_by_find. unfold Str.replace_first.
  destruct (Str.find "/dev/disk" s) as [i|]; [|reflexivity].
  rewrite (raw_fixed _ (H i eq_refl)). reflexivity.
Qed.

(** C5, as the code has it. The derivation replaces every occurrence of
    /dev/disk by /dev/rdisk: a text without the prefix is unchanged, and
    otherwise what precedes the first occurrence is kept, the occurrence
    becomes /dev/rdisk and the rest of the text is derived in the same
    way. *)
Theorem get_raw_device_node_replaces_every_occurrence (s : string) :
  get_raw_device_node s =
  match Str.find "/dev/disk" s with
  | None => s
  | Some i =>
      Str.take i s +:+ "/dev/rdisk" +:+
      get_raw_device_node (Str.drop (i + String.length "/dev/disk") s)
  end.
Proof. exact (raw_by_find s). Qed.

(** C5 as stated fails: with two occurrences of the prefix, the second
    one is replaced as well. *)
Lemma get_raw_device_node_not_first_only :
  get_raw_device_node "/dev/disk1/dev/disk2" = "/dev/rdisk1/dev/rdisk2" /\
  Str.replace_first "/dev/disk" "/dev/rdisk" "/dev/disk1/dev/disk2"
    = "/dev/rdisk1/dev/disk2" /\
  get_raw_device_node "/dev/disk1/dev/disk2"
    <> Str.replace_first "/dev/disk" "/dev/rdisk" "/dev/disk1/dev/disk2".
Proof. split; [reflexivity | split; [reflexivity | discriminate]]. Qed.

(** ** The reorder command (fatsort_utils.py) *)

Lemma fatsort_cmd_shape (device_node : string) (use_sudo : bool) :
  fatsort_cmd device_node use_sudo =
  (if use_sudo then ["sudo"] else []) ++
  ["fatsort"; "-o"; "a"; ensure_raw device_node].
Proof. destruct use_sudo; reflexivity. Qed.

(** A node with /rdisk anywhere in it is taken to be raw and goes into
    the command as it is. *)
Lemma ensure_raw_keeps_rdisk (device_node : string) :
  Str.contains "/rdisk" device_node = true -> ensure_raw device_node = device_node.
Proof. intros H. unfold ensure_raw. rewrite H. reflexivity. Qed.

(** C9, as the code has it. A node without /rdisk in it is normalized
    before the command is built: the command ends with the raw-device
    derivation of the argument, and that target has no /dev/disk in it.
    A node with /rdisk anywhere in it is built into the command
    unchanged. *)
Theorem run_fatsort_normalizes_without_rdisk
    (device_node : string) (use_sudo : bool) :
  (Str.contains "/rdisk" device_node = false ->
   fatsort_cmd device_node use_sudo =
     (if use_sudo then ["sudo"] else []) ++
     ["fatsort"; "-o"; "a"; get_raw_device_node device_node] /\
   Str.contains "/dev/disk" (get_raw_device_node device_node) = false) /\
  (Str.contains "/rdisk" device_node = true ->
   fatsort_cmd device_node use_sudo =
     (if use_sudo then ["sudo"] else []) ++
     ["fatsort"; "-o"; "a"; device_node]).
Proof.
  split; intros H.
  - split; [|apply raw_has_no_disk].
    rewrite fatsort_cmd_shape. unfold ensure_raw. rewrite H. reflexivity.
  - rewrite fatsort_cmd_shape, (ensure_raw_keeps_rdisk _ H). reflexivity.
Qed.

Lemma run_fatsort_normalizes_without_rdisk_witness :
  (fatsort_cmd "/dev/disk4s1" true
     = ["sudo"; "fatsort"; "-o"; "a"; "/dev/rdisk4s1"] /\
   Str.contains "/dev/disk" "/dev/rdisk4s1" = false) /\
  fatsort_cmd "/dev/rdisk4s1" false = ["fatsort"; "-o"; "a"; "/dev/rdisk4s1"].
Proof.
  split.
  - exact (proj1 (run_fatsort_normalizes_without_rdisk "/dev/disk4s1" true)
             eq_refl).
  - exact (proj2 (run_fatsort_normalizes_without_rdisk "/dev/rdisk4s1" false)
             eq_refl).
Defined.

(** What [sync_shokz] passes, a derived raw node, is built into the
    command as it is. *)
Lemma ensure_raw_of_raw (device_node : string) :
  ensure_raw (get_raw_device_node device_node) = get_raw_device_node device_node.
Proof.
  unfold ensure_raw.
  destruct (Str.contains "/rdisk" (get_raw_device_node device_node)); simpl;
    [reflexivity|].
  apply raw_fixed, raw_has_no_disk.
Qed.

(** C9 as stated fails: a buffered node that has /rdisk further on is
    not normalized, and the command is built with the /dev/disk node. *)
Lemma run_fatsort_keeps_buffered_node :
  fatsort_cmd "/dev/disk4s1/rdisk" true
    = ["sudo"; "fatsort"; "-o"; "a"; "/dev/disk4s1/rdisk"] /\
  Str.startswith "/dev/disk" "/dev/disk4s1/rdisk" = true /\
  get_raw_device_node "/dev/disk4s1/rdisk" = "/dev/rdisk4s1/rdisk".
Proof. split; [reflexivity | split; reflexivity]. Qed.

(** ** Confirmation by text (diskutil_utils.py) *)

Lemma run_command_ok (cmd : list string) (p result : CompletedProcess) :
  run_command cmd true p = Ok result <-> returncode p = 0%Z /\ result = p.
Proof.
  unfold run_command. simpl. destruct (Z.eqb_spec (returncode p) 0) as [E|E]; simpl.
  - split; [intros [= <-]; auto | intros [_ ->]; reflexivity].
  - split; [discriminate | intros [? _]; contradiction].
Qed.

Lemma contains_unmounted_mounted (t : string) :
  Str.contains "unmounted" t = true -> Str.contains "mounted" t = true.
Proof.
  induction t as [|c t IH]; [discriminate|].
  rewrite contains_cons. intros H. apply orb_true_iff in H as [H|H].
  - apply startswith_app in H as [r ->]. reflexivity.
  - apply contains_tail, IH, H.
Qed.

(** C10. The success check of mount_volume is a substring match for
    mounted, which unmounted contains: whenever the text the collaborator
    handed back says unmounted (in any case), mount_volume returns without
    raising. *)
Theorem mount_volume_accepts_unmounted
    (device_node : string) (p result : CompletedProcess) :
  run_command ["diskutil"; "mount"; device_node] true p = Ok result ->
  Str.contains "unmounted" (Str.lower (stdout result)) = true ->
  mount_volume device_node p = Ok tt.
Proof.
  intros Hrun H. unfold mount_volume. rewrite Hrun.
  rewrite (contains_unmounted_mounted _ H). reflexivity.
Qed.

Lemma mount_volume_accepts_unmounted_witness :
  mount_volume "/dev/disk4s1" (completed 0 "Volume XTRAINERZ on disk4s1 Unmounted" "")
  = Ok tt.
Proof.
  exact (mount_volume_accepts_unmounted "/dev/disk4s1"
           (completed 0 "Volume XTRAINERZ on disk4s1 Unmounted" "")
           (completed 0 "Volume XTRAINERZ on disk4s1 Unmounted" "")
           eq_refl eq_refl).
Defined.

Lemma unmount_volume_ok (mountpoint : string) (p : CompletedProcess) :
  unmount_volume mountpoint p = Ok tt <->
  returncode p = 0%Z /\ Str.contains "unmounted" (Str.lower (stdout p)) = true.
Proof.
  unfold unmount_volume, run_command. simpl.
  destruct (Z.eqb_spec (returncode p) 0) as [E|E]; simpl.
  - destruct (Str.contains "unmounted" (Str.lower (stdout p))); simpl.
    + split; auto.
    + match goal with |- context [if ?b then _ else _] => destruct b end;
        split; [discriminate | intros [_ ?]; discriminate
               | discriminate | intros [_ ?]; discriminate].
  - match goal with |- context [if ?b then _ else _] => destruct b end;
      split; [discriminate | intros [? _]; contradiction
             | discriminate | intros [? _]; contradiction].
Qed.

Lemma mount_volume_ok (device_node : string) (p : CompletedProcess) :
  mount_volume device_node p = Ok tt <->
  returncode p = 0%Z /\ Str.contains "mounted" (Str.lower (stdout p)) = true.
Proof.
  unfold mount_volume, run_command. simpl.
  destruct (Z.eqb_spec (returncode p) 0) as [E|E]; simpl.
  - destruct (Str.contains "mounted" (Str.lower (stdout p))); simpl.
    + split; auto.
    + split; [discriminate | intros [_ ?]; discriminate].
  - split; [discriminate | intros [? _]; contradiction].
Qed.

(** C7. unmount_volume succeeds exactly when the collaborator exits zero
    and its output says unmounted, mount_volume exactly when it exits
    zero and its output says mounted (in any case); a zero exit without
    the confirmation raises. *)
Theorem confirmation_by_text :
  (forall mountpoint p,
     unmount_volume mountpoint p = Ok tt <->
     returncode p = 0%Z /\ Str.contains "unmounted" (Str.lower (stdout p)) = true) /\
  (forall device_node p,
     mount_volume device_node p = Ok tt <->
     returncode p = 0%Z /\ Str.contains "mounted" (Str.lower (stdout p)) = true) /\
  (forall mountpoint p,
     returncode p = 0%Z ->
     Str.contains "unmounted" (Str.lower (stdout p)) = false ->
     exists e, unmount_volume mountpoint p = Raise e) /\
  (forall device_node p,
     returncode p = 0%Z ->
     Str.contains "mounted" (Str.lower (stdout p)) = false ->
     mount_volume device_node p
     = Raise (MkDiskutilError ("Mount may have failed: " +:+ stdout p))).
Proof.
  split; [exact unmount_volume_ok|]. split; [exact mount_volume_ok|]. split.
  - intros mountpoint p Hz Hc.
    destruct (unmount_volume mountpoint p) as [[]|e] eqn:E; [|exists e; reflexivity].
    apply unmount_volume_ok in E as [_ E]. congruence.
  - intros device_node p Hz Hc. unfold mount_volume, run_command.
    rewrite Hz. simpl. rewrite Hc. reflexivity.
Qed.

Lemma confirmation_by_text_witness :
  unmount_volume "/Volumes/XTRAINERZ" unmounted_ok = Ok tt /\
  mount_volume "/dev/disk4s1" mounted_ok = Ok tt /\
  (exists e, unmount_volume "/Volumes/XTRAINERZ" (completed 0 "Done." "") = Raise e) /\
  mount_volume "/dev/disk4s1" (completed 0 "Done." "")
  = Raise (MkDiskutilError "Mount may have failed: Done.").
Proof.
  destruct confirmation_by_text as (Hu & Hm & Hu0 & Hm0).
  split; [apply Hu; split; reflexivity|].
  split; [apply Hm; split; reflexivity|].
  split; [apply Hu0; reflexivity | apply Hm0; reflexivity].
Defined.

(** ** Busy and generic unmount failures *)

Lemma lower_append (a b : string) :
  Str.lower (a +:+ b) = Str.lower a +:+ Str.lower b.
Proof. induction a as [|c a IH]; simpl; [reflexivity | rewrite IH; reflexivity]. Qed.

Lemma contains_append_r (x a b : string) :
  Str.contains x b = true -> Str.contains x (a +:+ b) = true.
Proof.
  intros H. induction a as [|c a IH]; simpl String.append; [exact H|].
  apply contains_tail, IH.
Qed.


Lemma append_assoc (a b c : string) : (a +:+ b) +:+ c = a +:+ b +:+ c.
Proof.
  induction a as [|x a IH]; [reflexivity|].
  change (String x ((a +:+ b) +:+ c) = String x (a +:+ b +:+ c)).
  rewrite IH. reflexivity.
Qed.

(** The error with which the attempt inside [unmount_volume] fails ends
    with the text the tool reported. *)
Lemma unmount_volume_raise (mountpoint : string) (p : CompletedProcess)
    (e : DiskutilError) :
  unmount_volume mountpoint p = Raise e ->
  exists head,
    e = (if says_busy (head +:+ reported_error_text p)
         then MkDiskutilError (busy_message mountpoint)
         else MkDiskutilError (head +:+ reported_error_text p)).
Proof.
  unfold unmount_volume, run_command, reported_error_text.
  destruct (returncode p =? 0)%Z; cbv beta iota delta [andb negb str_of].
  - destruct (Str.contains "unmounted" (Str.lower (stdout p)));
      cbv beta iota delta [str_of]; [discriminate|].
    intros H. exists "Unmount may have failed: ".
    destruct (says_busy ("Unmount may have failed: " +:+ stdout p)); congruence.
  - intros H.
    exists ("Command failed: " +:+ Str.join " " ["diskutil"; "unmount"; mountpoint] +:+ nl).
    rewrite !append_assoc.
    destruct (says_busy _); congruence.
Qed.

Lemma startswith_append_l (x a b : string) :
  Str.startswith x a = true -> Str.startswith x (a +:+ b) = true.
Proof.
  intros H. apply startswith_app in H as [t ->]. apply startswith_app.
  exists (t +:+ b). apply append_assoc.
Qed.

Lemma contains_append_l (x a b : string) :
  Str.contains x a = true -> Str.contains x (a +:+ b) = true.
Proof.
  induction a as [|c a IH].
  - intros H. simpl in H. rewrite orb_false_r in H.
    destruct x as [|y x]; [|discriminate H].
    destruct b; reflexivity.
  - rewrite contains_cons. intros H.
    change (String c a +:+ b) with (String c (a +:+ b)). rewrite contains_cons.
    apply orb_true_iff in H as [H|H].
    + change (String c (a +:+ b)) with (String c a +:+ b).
      rewrite (startswith_append_l _ _ _ H). reflexivity.
    + rewrite (IH H). apply orb_true_r.
Qed.







(** C6 as stated fails: at a mountpoint with busy in its name the error
    raised when the tool's text does not say busy is the very error
    raised when it does. *)
Lemma unmount_busy_error_without_busy_report :
  Str.contains "busy"
    (Str.lower (reported_error_text (completed 1 "" "Unmount failed: dissented")))
  = false /\
  Str.contains "busy"
    (Str.lower (reported_error_text (completed 1 "" "Unmount failed: Resource busy")))
  = true /\
  unmount_volume "/Volumes/BUSYBEE" (completed 1 "" "Unmount failed: dissented")
  = Raise (MkDiskutilError (busy_message "/Volumes/BUSYBEE")) /\
  unmount_volume "/Volumes/BUSYBEE" (completed 1 "" "Unmount failed: Resource busy")
  = unmount_volume "/Volumes/BUSYBEE" (completed 1 "" "Unmount failed: dissented").
Proof. repeat split. Qed.

(** ** Device resolution *)

Lemma contains_colon_cons (c : ascii) (s : string) :
  Str.contains ":" (String c s) = Ascii.eqb ":" c || Str.contains ":" s.
Proof.
  rewrite contains_cons. simpl Str.startswith. rewrite andb_true_r. reflexivity.
Qed.

Lemma lstrip_keeps_no_colon (s : string) :
  Str.contains ":" s = false -> Str.contains ":" (Str.lstrip s) = false.
Proof.
  induction s as [|c s IH]; [reflexivity|].
  intros H. simpl Str.lstrip. destruct (Str.is_space c); [|exact H].
  apply IH. rewrite contains_colon_cons in H.
  apply orb_false_iff in H as [_ H]. exact H.
Qed.

Lemma rstrip_keeps_no_colon (s : string) :
  Str.contains ":" s = false -> Str.contains ":" (Str.rstrip s) = false.
Proof.
  induction s as [|c s IH]; [reflexivity|].
  rewrite contains_colon_cons. intros H.
  apply orb_false_iff in H as [Hc Hs]. specialize (IH Hs).
  simpl Str.rstrip. destruct (Str.rstrip s) as [|d r].
  - destruct (Str.is_space c); [reflexivity|].
    rewrite contains_colon_cons, Hc. reflexivity.
  - rewrite contains_colon_cons, Hc, IH. reflexivity.
Qed.

Lemma strip_keeps_no_colon (s : string) :
  Str.contains ":" s = false -> Str.contains ":" (Str.strip s) = false.
Proof. intros H. apply rstrip_keeps_no_colon, lstrip_keeps_no_colon, H. Qed.

Lemma parse_line_no_colon (info : gmap string string) (line : string) :
  Str.contains ":" line = false -> parse_line info line = info.
Proof.
  intros H. unfold parse_line. rewrite (strip_keeps_no_colon _ H). reflexivity.
Qed.

Lemma parse_lines_no_colon (lines : list string) (info : gmap string string) :
  (forall line, In line lines -> Str.contains ":" line = false) ->
  foldl parse_line info lines = info.
Proof.
  revert info. induction lines as [|l lines IH]; intros info H; [reflexivity|].
  simpl. rewrite parse_line_no_colon by (apply H; left; reflexivity).
  apply IH. intros line Hin. apply H. right. exact Hin.
Qed.

Lemma get_mount_info_no_colon (mountpoint : string) (p : CompletedProcess) :
  (forall line, In line (Str.splitlines (stdout p)) ->
                Str.contains ":" line = false) ->
  exists e, get_mount_info mountpoint p = Raise e.
Proof.
  intros H. unfold get_mount_info.
  destruct (run_command _ true p) as [result|e] eqn:E; [|exists e; reflexivity].
  apply run_command_ok in E as [_ ->].
  unfold parse_info. rewrite (parse_lines_no_colon _ _ H).
  destruct (decide (∅ = ∅)) as [_|Hne]; [eexists; reflexivity | contradiction].
Qed.

(** C8. Resolution fails with the resolution error when no line of the
    disk-info output has a colon, and when the parsed mapping has no
    Device Node entry or an empty one; a device node it returns is never
    empty. *)
Theorem get_device_node_never_empty :
  (forall mountpoint p,
     (forall line, In line (Str.splitlines (stdout p)) ->
                   Str.contains ":" line = false) ->
     exists e : DiskutilError, get_device_node mountpoint p = Raise e) /\
  (forall mountpoint p info,
     get_mount_info mountpoint p = Ok info ->
     info !! "Device Node" = None \/ info !! "Device Node" = Some "" ->
     get_device_node mountpoint p
     = Raise (MkDiskutilError
                ("Could not determine device node for " +:+ mountpoint))) /\
  (forall mountpoint p device_node,
     get_device_node mountpoint p = Ok device_node -> device_node <> "").
Proof.
  split; [|split].
  - intros mountpoint p H.
    destruct (get_mount_info_no_colon mountpoint p H) as [e He].
    exists e. unfold get_device_node. rewrite He. reflexivity.
  - intros mountpoint p info Hinfo H. unfold get_device_node. rewrite Hinfo.
    destruct H as [-> | ->]; reflexivity.
  - intros mountpoint p device_node. unfold get_device_node.
    destruct (get_mount_info mountpoint p) as [info|e]; [|discriminate].
    destruct (info !! "Device Node") as [[|c d]|]; try discriminate.
    intros [= <-]. discriminate.
Qed.

Lemma get_device_node_never_empty_witness :
  (exists e, get_device_node "/Volumes/XTRAINERZ"
               (completed 0 ("no such volume" +:+ nl +:+ "try again") "")
             = Raise e) /\
  get_device_node "/Volumes/XTRAINERZ"
    (completed 0 ("Device Node:" +:+ nl +:+ "Mounted: Yes") "")
  = Raise (MkDiskutilError "Could not determine device node for /Volumes/XTRAINERZ") /\
  "/dev/disk4s1" <> "".
Proof.
  destruct get_device_node_never_empty as (H1 & H2 & H3).
  split; [|split].
  - apply H1. intros line Hin. vm_compute in Hin.
    destruct Hin as [<- | [<- | []]]; reflexivity.
  - apply (H2 _ _ (parse_info ("Device Node:" +:+ nl +:+ "Mounted: Yes"))).
    + vm_compute. reflexivity.
    + right. vm_compute. reflexivity.
  - apply (H3 "/Volumes/XTRAINERZ" (completed 0 SAMPLE_DISKUTIL_OUTPUT "")).
    vm_compute. reflexivity.
Defined.

(** ** Sessions of [sync_shokz] *)

Lemma each_position_spec (P : list event -> event -> list event -> bool)
    (tr before : list event) :
  each_position P before tr = true ->
  forall pre e post, tr = pre ++ e :: post -> P (before ++ pre) e post = true.
Proof.
  revert before. induction tr as [|x tr IH]; intros before H pre e post Heq.
  - destruct pre; discriminate Heq.
  - simpl in H. apply andb_true_iff in H as [Hx Htr].
    destruct pre as [|y pre]; simpl in Heq; injection Heq as -> ->.
    + rewrite app_nil_r. exact Hx.
    + specialize (IH _ Htr pre e post eq_refl).
      rewrite <- app_assoc in IH. exact IH.
Qed.

(** Runs a session symbolically: the calls of the collaborators stay
    folded, and every answer that decides the control flow is split. *)
Ltac run_session :=
  cbv beta iota zeta delta
    [trace exit_code sync_shokz run_beets_import count_music_files
     call_verify_dependencies call_is_mounted call_verify_beets_config
     call_create_beets_config call_get_device_node call_unmount_volume
     call_run_fatsort call_mount_volume
     log_step log_success log_error log_info
     perform emit bind ret mbind M_bind fst snd app negb
     args_mountpoint args_bitrate args_dry_run args_verbose];
  repeat match goal with
         | |- context [match ?x with _ => _ end] =>
             lazymatch x with
             | context [match _ with _ => _ end] => fail
             | _ => destruct x eqn:?
             end
         end.

Lemma session_ordering_check (env : Env) (args : Namespace) :
  each_position ordering_ok [] (trace env args) = true.
Proof.
  destruct args as [mp br nc dry vb].
  run_session; reflexivity.
Qed.

(** C3. In every session the reorder is invoked only after an unmount
    that succeeded, with no mount call in between; the import is invoked
    only on the volume found mounted, before any unmount call; and the
    device node is resolved exactly once, before the unmount and never
    again. *)
Theorem session_ordering (env : Env) (args : Namespace)
    (pre : list event) (e : event) (post : list event) :
  trace env args = pre ++ e :: post ->
  (is_reorder e = true ->
   existsb unmount_succeeded pre = true /\ existsb is_mount pre = false) /\
  (is_import e = true ->
   existsb found_mounted pre = true /\ existsb is_unmount pre = false) /\
  (is_unmount e = true ->
   count is_resolution pre = 1 /\ count is_resolution post = 0) /\
  (is_resolution e = true ->
   count is_resolution pre = 0 /\ count is_resolution post = 0 /\
   existsb is_unmount pre = false).
Proof.
  intros Heq.
  pose proof (each_position_spec _ _ _ (session_ordering_check env args)
                pre e post Heq) as H.
  simpl app in H. unfold ordering_ok in H.
  repeat (apply andb_true_iff in H as [H ?]).
  split; [|split; [|split]]; intros He; rewrite He in *; simpl implb in *;
    repeat match goal with
           | H : _ && _ = true |- _ => apply andb_true_iff in H as [? ?]
           | H : negb _ = true |- _ => apply negb_true_iff in H
           | H : (_ =? _) = true |- _ => apply Nat.eqb_eq in H
           end; repeat split; assumption.
Qed.

Lemma session_ordering_witness :
  existsb unmount_succeeded (firstn 22 (trace happy_env (default_args false))) = true /\
  existsb is_mount (firstn 22 (trace happy_env (default_args false))) = false.
Proof.
  refine (proj1 (session_ordering happy_env (default_args false)
                   (firstn 22 (trace happy_env (default_args false)))
                   (RunFatsort "/dev/rdisk4s1" true (Ok tt))
                   (skipn 23 (trace happy_env (default_args false)))
                   _) eq_refl).
  vm_compute. reflexivity.
Defined.

Ltac session_facts :=
  repeat match goal with
         | H : (_ =? _)%Z = true |- _ => apply Z.eqb_eq in H; subst
         | H : ?x = ?v |- context [?x] => rewrite H
         end.

Ltac all_but_last n :=
  lazymatch goal with
  | |- exists pre, ?tr = _ => exists (firstn (length tr - n) tr)
  | |- exists pre x, ?tr = _ => exists (firstn (length tr - n) tr)
  | |- exists pre x, ?tr = _ /\ _ => exists (firstn (length tr - n) tr)
  | |- exists pre x y, ?tr = _ /\ _ => exists (firstn (length tr - n) tr)
  | |- exists pre x y z, ?tr = _ /\ _ => exists (firstn (length tr - n) tr)
  end.

(** C1. A dry-run session in which the dependency check, the mount
    check, the configuration step and the import all succeed ends with
    exit code 0 right after the import, and neither the device-node
    resolution nor an unmount, a reorder or a mount is ever invoked. *)
Theorem dry_run_stops_after_import (env : Env) (args : Namespace) :
  args_dry_run args = true ->
  existsb dependencies_verified (trace env args) = true ->
  existsb found_mounted (trace env args) = true ->
  existsb config_ready (trace env args) = true ->
  existsb import_succeeded (trace env args) = true ->
  exit_code env args = 0%Z /\
  (exists pre cmd,
     trace env args =
     pre ++ [BeetsImport cmd (BeetReturned 0);
             Log Success "Beets import completed";
             Log Info "Dry run complete - no fatsort performed"]) /\
  existsb is_resolution (trace env args) = false /\
  existsb is_unmount (trace env args) = false /\
  existsb is_reorder (trace env args) = false /\
  existsb is_mount (trace env args) = false.
Proof.
  destruct args as [mp br nc dry vb]. simpl args_dry_run. intros ->.
  run_session; simpl existsb; session_facts; simpl;
    intros; try discriminate;
    (split; [reflexivity|]; split; [|repeat split]);
    all_but_last 3; eexists; reflexivity.
Qed.

Lemma dry_run_stops_after_import_witness :
  exit_code happy_env (default_args true) = 0%Z /\
  existsb is_resolution (trace happy_env (default_args true)) = false /\
  existsb is_unmount (trace happy_env (default_args true)) = false /\
  existsb is_reorder (trace happy_env (default_args true)) = false /\
  existsb is_mount (trace happy_env (default_args true)) = false.
Proof.
  destruct (dry_run_stops_after_import happy_env (default_args true)
              eq_refl eq_refl eq_refl eq_refl eq_refl) as (H0 & _ & H).
  exact (conj H0 H).
Defined.

(** ** More about the disk-info mapping *)

Lemma colon_not_space (c : ascii) :
  Str.is_space c = true -> Ascii.eqb ":" c = false.
Proof.
  intros H. destruct (Ascii.eqb_spec ":" c) as [<-|]; [discriminate H | reflexivity].
Qed.

Lemma lstrip_keeps_colon (s : string) :
  Str.contains ":" s = true -> Str.contains ":" (Str.lstrip s) = true.
Proof.
  induction s as [|c s IH]; [discriminate|].
  intros H. simpl Str.lstrip. destruct (Str.is_space c) eqn:E; [|exact H].
  apply IH. rewrite contains_colon_cons, (colon_not_space _ E) in H. exact H.
Qed.

Lemma rstrip_keeps_colon (s : string) :
  Str.contains ":" s = true -> Str.contains ":" (Str.rstrip s) = true.
Proof.
  induction s as [|c s IH]; [discriminate|].
  rewrite contains_colon_cons. intros H. simpl Str.rstrip.
  destruct (Str.contains ":" s) eqn:Hs.
  - specialize (IH eq_refl). destruct (Str.rstrip s) as [|d r]; [discriminate IH|].
    rewrite contains_colon_cons, IH. apply orb_true_r.
  - rewrite orb_false_r in H.
    destruct (Str.rstrip s) as [|d r].
    + destruct (Str.is_space c) eqn:E.
      * rewrite (colon_not_space _ E) in H. discriminate H.
      * rewrite contains_colon_cons, H. reflexivity.
    + rewrite contains_colon_cons, H. reflexivity.
Qed.

Lemma strip_colon (s : string) :
  Str.contains ":" (Str.strip s) = Str.contains ":" s.
Proof.
  destruct (Str.contains ":" s) eqn:E.
  - apply rstrip_keeps_colon, lstrip_keeps_colon, E.
  - apply strip_keeps_no_colon, E.
Qed.

Lemma parse_line_entry (info : gmap string string) (line : string) :
  parse_line info line =
  match line_entry line with
  | Some (k, v) => <[k := v]> info
  | None => info
  end.
Proof.
  unfold parse_line, line_entry.
  destruct (Str.contains ":" (Str.strip line)); [|reflexivity].
  destruct (Str.split_once ":" (Str.strip line)) as [key value]. reflexivity.
Qed.

Lemma line_entry_colon (line : string) :
  is_Some (line_entry line) <-> Str.contains ":" line = true.
Proof.
  unfold line_entry. rewrite strip_colon.
  destruct (Str.contains ":" line).
  - destruct (Str.split_once ":" (Str.strip line)). split; eauto.
  - split; [intros [x Hx]; discriminate Hx | discriminate].
Qed.

Lemma parse_lines_lookup (lines : list string) (info : gmap string string)
    (k : string) :
  foldl parse_line info lines !! k =
  match last_entry k lines with
  | Some v => Some v
  | None => info !! k
  end.
Proof.
  revert info. induction lines as [|l lines IH]; intros info; [reflexivity|].
  simpl. rewrite IH. destruct (last_entry k lines) as [v|]; [reflexivity|].
  rewrite parse_line_entry. destruct (line_entry l) as [[k' v]|]; [|reflexivity].
  destruct (decide (k' = k)) as [->|Hne].
  - apply lookup_insert_eq.
  - apply lookup_insert_ne, Hne.
Qed.

Lemma parse_info_lookup (text k : string) :
  parse_info text !! k = last_entry k (Str.splitlines text).
Proof.
  unfold parse_info. rewrite parse_lines_lookup, lookup_empty.
  destruct (last_entry k (Str.splitlines text)); reflexivity.
Qed.

(** X1. Of several lines with the same key the last one wins: the
    mapping holds for a key the entry of the last line that has it, and
    no value for a key that no line has. *)
Theorem parse_info_last_line_wins (text k : string) :
  parse_info text !! k = last_entry k (Str.splitlines text).
Proof. exact (parse_info_lookup text k). Qed.

Lemma last_entry_is_some (lines : list string) (l k v : string) :
  In l lines -> line_entry l = Some (k, v) -> is_Some (last_entry k lines).
Proof.
  induction lines as [|x lines IH]; intros Hin Hl; [destruct Hin|].
  simpl. destruct (last_entry k lines) as [w|] eqn:E; [eauto|].
  destruct Hin as [->|Hin].
  - rewrite Hl. rewrite decide_True by reflexivity. eauto.
  - destruct (IH Hin Hl) as [w Hw]. discriminate Hw.
Qed.

Lemma last_entry_from_line (lines : list string) (k v : string) :
  last_entry k lines = Some v ->
  exists l, In l lines /\ line_entry l = Some (k, v).
Proof.
  induction lines as [|x lines IH]; [discriminate|].
  simpl. destruct (last_entry k lines) as [w|].
  - intros [= ->]. destruct (IH eq_refl) as (l & Hin & Hl).
    exists l. split; [right; exact Hin | exact Hl].
  - destruct (line_entry x) as [[k' v']|] eqn:E; [|discriminate].
    destruct (decide (k' = k)) as [->|]; [|discriminate].
    intros [= ->]. exists x. split; [left; reflexivity | exact E].
Qed.

Lemma parse_info_empty_iff (text : string) :
  parse_info text = ∅ <->
  forall line, In line (Str.splitlines text) -> Str.contains ":" line = false.
Proof.
  split.
  - intros He line Hin. destruct (Str.contains ":" line) eqn:Hc; [|reflexivity].
    apply line_entry_colon in Hc as [[k v] Hl].
    destruct (last_entry_is_some _ _ _ _ Hin Hl) as [w Hw].
    rewrite <- parse_info_lookup, He, lookup_empty in Hw. discriminate Hw.
  - intros H. unfold parse_info. apply parse_lines_no_colon, H.
Qed.

Lemma get_mount_info_ok (mountpoint : string) (p : CompletedProcess)
    (info : gmap string string) :
  get_mount_info mountpoint p = Ok info <->
  returncode p = 0%Z /\ info = parse_info (stdout p) /\
  exists line, In line (Str.splitlines (stdout p)) /\ Str.contains ":" line = true.
Proof.
  unfold get_mount_info, run_command. simpl andb.
  destruct (Z.eqb_spec (returncode p) 0) as [Hz|Hz]; simpl negb; cbv iota.
  - destruct (decide (parse_info (stdout p) = ∅)) as [He|Hne].
    + split; [discriminate|]. intros (_ & _ & line & Hin & Hc).
      rewrite (proj1 (parse_info_empty_iff _) He line Hin) in Hc. discriminate Hc.
    + split.
      * intros [= <-]. split; [exact Hz|]. split; [reflexivity|].
        destruct (map_choose _ Hne) as (k & v & Hkv).
        rewrite parse_info_lookup in Hkv.
        destruct (last_entry_from_line _ _ _ Hkv) as (l & Hin & Hl).
        exists l. split; [exact Hin|]. apply line_entry_colon. eauto.
      * intros (_ & -> & _). reflexivity.
  - split; [discriminate | intros [? _]; contradiction].
Qed.

(** X2. get_mount_info returns a mapping exactly when diskutil exits
    zero and at least one line of its output has a colon; the mapping is
    then the one parsed from the output. *)
Theorem get_mount_info_ok_iff (mountpoint : string) (p : CompletedProcess)
    (info : gmap string string) :
  get_mount_info mountpoint p = Ok info <->
  returncode p = 0%Z /\ info = parse_info (stdout p) /\
  exists line, In line (Str.splitlines (stdout p)) /\ Str.contains ":" line = true.
Proof. exact (get_mount_info_ok mountpoint p info). Qed.

(** X3. is_mounted answers True exactly when the path exists, diskutil
    exits zero and the parsed Mounted entry is the text Yes, letter for
    letter; a path that does not exist is not mounted whatever diskutil
    says. *)
Theorem is_mounted_iff (mountpoint : string) (path_exists : bool)
    (p : CompletedProcess) :
  is_mounted mountpoint path_exists p = true <->
  path_exists = true /\ returncode p = 0%Z /\
  parse_info (stdout p) !! "Mounted" = Some "Yes".
Proof.
  unfold is_mounted. destruct path_exists; simpl negb; cbv iota.
  - destruct (get_mount_info mountpoint p) as [info|e] eqn:E.
    + apply get_mount_info_ok in E as (Hz & -> & _).
      rewrite bool_decide_eq_true. tauto.
    + split; [discriminate|]. intros (_ & Hz & Hm).
      assert (get_mount_info mountpoint p = Ok (parse_info (stdout p))) as Hok.
      { apply get_mount_info_ok. split; [exact Hz|]. split; [reflexivity|].
        rewrite parse_info_lookup in Hm.
        destruct (last_entry_from_line _ _ _ Hm) as (l & Hin & Hl).
        exists l. split; [exact Hin|]. apply line_entry_colon. eauto. }
      congruence.
  - split; [discriminate | intros [? _]; discriminate].
Qed.

(** X4. get_device_node returns a node exactly when diskutil exits zero
    and the parsed Device Node entry is that node and is not empty: the
    value is handed back as parsed. *)
Theorem get_device_node_ok_iff (mountpoint : string) (p : CompletedProcess)
    (device_node : string) :
  get_device_node mountpoint p = Ok device_node <->
  returncode p = 0%Z /\
  parse_info (stdout p) !! "Device Node" = Some device_node /\
  device_node <> "".
Proof.
  unfold get_device_node.
  destruct (get_mount_info mountpoint p) as [info|e] eqn:E.
  - apply get_mount_info_ok in E as (Hz & -> & _).
    destruct (parse_info (stdout p) !! "Device Node") as [[|c d]|].
    + split; [discriminate | intros (_ & [= <-] & Hne); contradiction].
    + split; [intros [= <-]; auto | intros (_ & [= <-] & _); reflexivity].
    + split; [discriminate | intros (_ & H & _); discriminate H].
  - split; [discriminate|]. intros (Hz & Hd & _).
    assert (get_mount_info mountpoint p = Ok (parse_info (stdout p))) as Hok.
    { apply get_mount_info_ok. split; [exact Hz|]. split; [reflexivity|].
      rewrite parse_info_lookup in Hd.
      destruct (last_entry_from_line _ _ _ Hd) as (l & Hin & Hl).
      exists l. split; [exact Hin|]. apply line_entry_colon. eauto. }
    congruence.
Qed.

(** *** Keys and values are trimmed *)

Lemma lstrip_no_leading_space (s : string) :
  no_leading_space (Str.lstrip s) = true.
Proof.
  induction s as [|c s IH]; [reflexivity|].
  simpl Str.lstrip. destruct (Str.is_space c) eqn:E; [exact IH|].
  simpl. rewrite E. reflexivity.
Qed.

Lemma lstrip_fixed (s : string) :
  no_leading_space s = true -> Str.lstrip s = s.
Proof.
  destruct s as [|c s]; [reflexivity|]. simpl.
  destruct (Str.is_space c); [discriminate | reflexivity].
Qed.

Lemma rstrip_no_leading_space (s : string) :
  no_leading_space s = true -> no_leading_space (Str.rstrip s) = true.
Proof.
  destruct s as [|c s]; [reflexivity|]. intros H. simpl Str.rstrip.
  destruct (Str.rstrip s); [|exact H].
  destruct (Str.is_space c); [reflexivity | exact H].
Qed.

Lemma rstrip_cons (c : ascii) (s : string) :
  Str.rstrip (String c s) =
  match Str.rstrip s with
  | EmptyString => if Str.is_space c then EmptyString else String c EmptyString
  | String d r => String c (String d r)
  end.
Proof. reflexivity. Qed.

Lemma rstrip_rstrip (s : string) : Str.rstrip (Str.rstrip s) = Str.rstrip s.
Proof.
  induction s as [|c s IH]; [reflexivity|].
  rewrite (rstrip_cons c s). destruct (Str.rstrip s) as [|d r] eqn:E.
  - destruct (Str.is_space c) eqn:Hc; [reflexivity|].
    rewrite rstrip_cons. simpl Str.rstrip. rewrite Hc. reflexivity.
  - rewrite rstrip_cons, IH. reflexivity.
Qed.

Lemma strip_strip (s : string) : Str.strip (Str.strip s) = Str.strip s.
Proof.
  unfold Str.strip.
  rewrite (lstrip_fixed (Str.rstrip (Str.lstrip s))).
  - apply rstrip_rstrip.
  - apply rstrip_no_leading_space, lstrip_no_leading_space.
Qed.

Lemma split_once_key_no_colon (s : string) :
  Str.contains ":" (fst (Str.split_once ":" s)) = false.
Proof.
  induction s as [|c s IH]; [reflexivity|].
  simpl Str.split_once. destruct (Ascii.eqb_spec c ":") as [->|Hne]; [reflexivity|].
  destruct (Str.split_once ":" s) as [k v]. cbv beta iota delta [fst] in *.
  rewrite contains_colon_cons, IH, orb_false_r.
  destruct (Ascii.eqb_spec ":" c) as [<-|]; [contradiction | reflexivity].
Qed.

Lemma line_entry_trimmed (line k v : string) :
  line_entry line = Some (k, v) ->
  Str.strip k = k /\ Str.strip v = v /\ Str.contains ":" k = false.
Proof.
  unfold line_entry. destruct (Str.contains ":" (Str.strip line)); [|discriminate].
  pose proof (split_once_key_no_colon (Str.strip line)) as Hk.
  destruct (Str.split_once ":" (Str.strip line)) as [key value].
  cbv beta iota delta [fst] in Hk.
  intros [= <- <-]. split; [apply strip_strip|]. split; [apply strip_strip|].
  apply strip_keeps_no_colon, Hk.
Qed.

(** X5. Every key and every value of the mapping parsed from a
    disk-info text is trimmed, and no key has a colon in it (a value may
    have: only the first colon of a line splits it). *)
Theorem parse_info_entries_trimmed (text k v : string) :
  parse_info text !! k = Some v ->
  Str.strip k = k /\ Str.strip v = v /\ Str.contains ":" k = false.
Proof.
  rewrite parse_info_lookup. intros H.
  destruct (last_entry_from_line _ _ _ H) as (l & _ & Hl).
  exact (line_entry_trimmed _ _ _ Hl).
Qed.

Lemma parse_info_entries_trimmed_witness :
  parse_info ("  Mount Point :   /Volumes/A:B  " +:+ nl) !! "Mount Point"
    = Some "/Volumes/A:B" /\
  Str.strip "Mount Point" = "Mount Point" /\
  Str.strip "/Volumes/A:B" = "/Volumes/A:B" /\
  Str.contains ":" "Mount Point" = false.
Proof.
  split; [vm_compute; reflexivity|].
  apply (parse_info_entries_trimmed ("  Mount Point :   /Volumes/A:B  " +:+ nl)).
  vm_compute. reflexivity.
Defined.

(** ** More about unmount failures *)

(** X6. The busy test of unmount_volume reads the whole error text,
    which after a non-zero exit names the command and so the mountpoint:
    for a mountpoint whose name has busy in it (in any case), every
    non-zero exit of diskutil is reported as the busy error, whatever
    the tool wrote. *)
Theorem unmount_busy_mountpoint (mountpoint : string) (p : CompletedProcess) :
  returncode p <> 0%Z ->
  Str.contains "busy" (Str.lower mountpoint) = true ->
  unmount_volume mountpoint p = Raise (MkDiskutilError (busy_message mountpoint)).
Proof.
  intros Hz Hb. unfold unmount_volume, run_command.
  apply Z.eqb_neq in Hz. rewrite Hz. cbv beta iota delta [andb negb str_of].
  assert (says_busy ("Command failed: " +:+
                     Str.join " " ["diskutil"; "unmount"; mountpoint] +:+
                     nl +:+ stderr p) = true) as ->; [|reflexivity].
  unfold says_busy. apply orb_true_iff. right.
  rewrite lower_append. apply contains_append_r.
  rewrite lower_append. apply contains_append_l.
  change (Str.join " " ["diskutil"; "unmount"; mountpoint])
    with ("diskutil unmount " +:+ mountpoint).
  rewrite lower_append. apply contains_append_r, Hb.
Qed.

Lemma unmount_busy_mountpoint_witness :
  unmount_volume "/Volumes/BUSYBEE" (completed 1 "" "Unmount failed: dissented")
  = Raise (MkDiskutilError (busy_message "/Volumes/BUSYBEE")).
Proof.
  apply unmount_busy_mountpoint; [discriminate | reflexivity].
Defined.

(** ** More about the raw-device derivation *)

(** X7. The normalization of run_fatsort is idempotent: normalizing a
    normalized node changes nothing. *)
Theorem ensure_raw_idempotent (device_node : string) :
  ensure_raw (ensure_raw device_node) = ensure_raw device_node.
Proof.
  destruct (Str.contains "/rdisk" device_node) eqn:E.
  - rewrite !(ensure_raw_keeps_rdisk _ E). reflexivity.
  - assert (ensure_raw device_node = get_raw_device_node device_node) as ->.
    { unfold ensure_raw. rewrite E. reflexivity. }
    apply ensure_raw_of_raw.
Qed.

(** X8. The derivation leaves a node as it is exactly when the node has
    no /dev/disk in it. *)
Theorem get_raw_device_node_fixed_iff (device_node : string) :
  get_raw_device_node device_node = device_node <->
  Str.contains "/dev/disk" device_node = false.
Proof.
  split; [|apply raw_fixed].
  intros H. rewrite <- H. apply raw_has_no_disk.
Qed.

(** X9. On the nodes diskutil names, /dev/disk followed by a rest
    without the prefix, the derivation gives /dev/rdisk with the same
    rest, and the raw node is left as it is. *)
Theorem get_raw_device_node_standard (rest : string) :
  Str.contains "/dev/disk" rest = false ->
  get_raw_device_node ("/dev/disk" +:+ rest) = "/dev/rdisk" +:+ rest /\
  get_raw_device_node ("/dev/rdisk" +:+ rest) = "/dev/rdisk" +:+ rest.
Proof.
  intros H. split.
  - rewrite raw_hit, (raw_fixed _ H). reflexivity.
  - apply raw_fixed. exact H.
Qed.

Lemma get_raw_device_node_standard_witness :
  get_raw_device_node "/dev/disk10s2" = "/dev/rdisk10s2" /\
  get_raw_device_node "/dev/rdisk10s2" = "/dev/rdisk10s2".
Proof. exact (get_raw_device_node_standard "10s2" eq_refl). Defined.

(** ** What the errors report *)

Lemma startswith_refl (x : string) : Str.startswith x x = true.
Proof. apply startswith_app. exists "". induction x as [|c x IH]; [reflexivity|].
  change (String c x = String c (x +:+ "")). rewrite <- IH. reflexivity.
Qed.

Lemma contains_refl (x : string) : Str.contains x x = true.
Proof.
  destruct x as [|c x]; [reflexivity|].
  rewrite contains_cons, startswith_refl. reflexivity.
Qed.

(** X10. run_command with check off hands the process back whatever its
    exit code; with check on it hands it back exactly on a zero exit,
    and otherwise raises an error whose text has the command line and
    the standard error of the process in it. *)
Theorem run_command_reports (cmd : list string) (p : CompletedProcess) :
  run_command cmd false p = Ok p /\
  (run_command cmd true p = Ok p <-> returncode p = 0%Z) /\
  (returncode p <> 0%Z ->
   exists text,
     run_command cmd true p = Raise (MkDiskutilError text) /\
     Str.contains (Str.join " " cmd) text = true /\
     Str.contains (stderr p) text = true).
Proof.
  split; [reflexivity|]. unfold run_command. simpl andb.
  destruct (Z.eqb_spec (returncode p) 0) as [Hz|Hz]; simpl negb; cbv iota.
  - split; [tauto | contradiction].
  - split; [split; [discriminate | contradiction]|].
    intros _. eexists. split; [reflexivity|]. split.
    + apply contains_append_r, contains_append_l, contains_refl.
    + apply contains_append_r, contains_append_r, contains_append_r, contains_refl.
Qed.

Lemma run_command_reports_witness :
  exists text,
    run_command ["diskutil"; "mount"; "/dev/disk4s1"] true mount_refused
    = Raise (MkDiskutilError text) /\
    Str.contains "diskutil mount /dev/disk4s1" text = true /\
    Str.contains "Volume on disk4s1 failed to mount" text = true.
Proof.
  refine (proj2 (proj2 (run_command_reports ["diskutil"; "mount"; "/dev/disk4s1"]
                          mount_refused)) _).
  discriminate.
Defined.

(** X11. run_fatsort succeeds exactly when the process ran and exited
    zero. A non-zero exit raises an error that starts with the exit-code
    message and has the standard error of the process in it; a tool that
    is not installed raises the error with the install hint, which is a
    different text. *)
Theorem run_fatsort_outcomes (device_node : string) (use_sudo : bool)
    (r : fatsort_run) :
  (run_fatsort device_node use_sudo r = Ok tt <->
   exists p, r = FatsortRan p /\ returncode p = 0%Z) /\
  (forall p, r = FatsortRan p -> returncode p <> 0%Z ->
     exists text,
       run_fatsort device_node use_sudo r = Raise (MkFatsortError text) /\
       Str.startswith "fatsort failed with exit code " text = true /\
       Str.contains (stderr p) text = true) /\
  (r = FatsortNotFound ->
   exists text,
     run_fatsort device_node use_sudo r = Raise (MkFatsortError text) /\
     Str.startswith "fatsort failed with exit code " text = false /\
     Str.contains "brew install fatsort" text = true).
Proof.
  split; [|split].
  - destruct r as [p|]; simpl.
    + destruct (Z.eqb_spec (returncode p) 0) as [Hz|Hz].
      * split; [eauto | reflexivity].
      * split; [discriminate | intros (q & [= <-] & Hq); contradiction].
    + split; [discriminate | intros (q & Hq & _); discriminate Hq].
  - intros p -> Hz. unfold run_fatsort. apply Z.eqb_neq in Hz. rewrite Hz.
    eexists. split; [reflexivity|]. split.
    + destruct (stderr p); apply startswith_app; eexists;
        rewrite ?append_assoc; reflexivity.
    + destruct (stderr p) as [|c e] eqn:E; [destruct (_ +:+ _); reflexivity|].
      apply contains_append_r, contains_append_r, contains_append_r, contains_refl.
  - intros ->. eexists. split; [reflexivity|]. split; reflexivity.
Qed.

Lemma run_fatsort_outcomes_witness :
  exists text,
    run_fatsort "/dev/rdisk4s1" true fatsort_failed = Raise (MkFatsortError text) /\
    Str.startswith "fatsort failed with exit code " text = true /\
    Str.contains "Failed to open device" text = true.
Proof.
  refine (proj1 (proj2 (run_fatsort_outcomes "/dev/rdisk4s1" true fatsort_failed))
            (completed 1 "" "Failed to open device") eq_refl _).
  discriminate.
Defined.

(** ** More about sessions *)

(** Evaluates a property of a finished session, up to the comparisons
    of exit codes that the session left open. *)
Ltac session_eval :=
  cbv beta iota zeta delta
    [outcome_ok stage_ok each_position existsb forallb app
     orb andb negb implb Bool.eqb count List.filter length Nat.eqb is_ok
     is_log is_create is_summary is_import is_resolution is_unmount
     is_reorder is_mount is_error_log touches_device
     dependencies_verified found_mounted config_ready config_rejected
     import_succeeded resolution_succeeded unmount_succeeded unmount_failed
     reorder_failed reorder_succeeded mount_succeeded mount_failed];
  session_facts.

Lemma session_stage_check (env : Env) (args : Namespace) :
  each_position (stage_ok (args_dry_run args)) [] (trace env args) = true.
Proof.
  destruct args as [mp br nc dry vb]. simpl args_dry_run.
  destruct dry; run_session; session_eval; reflexivity.
Qed.

Lemma session_outcome_check (env : Env) (args : Namespace) :
  outcome_ok (args_dry_run args) (exit_code env args) (trace env args) = true.
Proof.
  destruct args as [mp br nc dry vb]. simpl args_dry_run.
  destruct dry; run_session; session_eval; reflexivity.
Qed.

Lemma existsb_split (f : event -> bool) (tr : list event) :
  existsb f tr = true ->
  exists pre e post, tr = pre ++ e :: post /\ f e = true.
Proof.
  intros H. apply existsb_exists in H as (e & Hin & He).
  apply in_split in Hin as (pre & post & ->). eauto.
Qed.

Lemma existsb_prefix (f : event -> bool) (pre post : list event) :
  existsb f pre = true -> existsb f (pre ++ post) = true.
Proof. intros H. rewrite existsb_app, H. reflexivity. Qed.

(** X13. In every session each collaborator is called only after the
    step before it went through: the mount check after the dependency
    check passed, the configuration check after the volume was found
    mounted, the creation of a configuration only after the check
    rejected it, the import once the configuration is ready, the
    resolution only after the import succeeded and never in a dry run,
    the unmount after a successful resolution, the reorder after a
    successful unmount, the mount after the reorder was invoked, and the
    summary, as the last event, after a successful reorder and mount.
    Creation, import, unmount, reorder and mount happen at most once. *)
Theorem session_steps_in_order (env : Env) (args : Namespace)
    (pre : list event) (e : event) (post : list event) :
  trace env args = pre ++ e :: post ->
  stage_ok (args_dry_run args) pre e post = true.
Proof.
  intros H.
  exact (each_position_spec _ _ _ (session_stage_check env args) pre e post H).
Qed.

Lemma session_steps_in_order_witness :
  stage_ok false (firstn 18 (trace happy_env (default_args false)))
    (UnmountVolume "/Volumes/XTRAINERZ" (Ok tt))
    (skipn 19 (trace happy_env (default_args false))) = true.
Proof.
  apply (session_steps_in_order happy_env (default_args false)).
  vm_compute. reflexivity.
Defined.

Lemma outcome_parts (env : Env) (args : Namespace) :
  let dry := args_dry_run args in
  let code := exit_code env args in
  let tr := trace env args in
  (((code =? 0)%Z || (code =? 1)%Z) = true) /\
  (Bool.eqb (code =? 0)%Z
     (if dry then existsb import_succeeded tr else existsb is_summary tr) = true) /\
  (implb dry (negb (existsb touches_device tr)) = true) /\
  (implb (existsb touches_device tr) (existsb import_succeeded tr) = true) /\
  (implb (existsb config_rejected tr) (existsb is_create tr) = true) /\
  (implb (existsb unmount_succeeded tr)
     ((count is_mount tr =? 1) && existsb is_reorder tr) = true) /\
  (implb (existsb unmount_failed tr)
     (negb (existsb is_reorder tr) && negb (existsb is_mount tr)
      && (code =? 1)%Z) = true) /\
  (implb (existsb reorder_succeeded tr && existsb mount_failed tr)
     ((code =? 1)%Z && (count is_unmount tr =? 1)
      && (count is_reorder tr =? 1) && (count is_mount tr =? 1)
      && (count is_error_log tr =? 1)) = true) /\
  (implb (code =? 0)%Z (negb (existsb is_error_log tr)) = true) /\
  (implb (code =? 1)%Z
     (negb (existsb dependencies_verified tr) || existsb is_error_log tr) = true).
Proof.
  cbv zeta. pose proof (session_outcome_check env args) as H.
  unfold outcome_ok in H. rewrite !andb_true_iff in H. tauto.
Qed.

(** X14. The exit code of a session is 0 or 1. It is 0 exactly when, in
    a dry run, the import succeeded, and otherwise when the session got
    as far as its summary. *)
Theorem exit_code_meaning (env : Env) (args : Namespace) :
  (exit_code env args = 0%Z \/ exit_code env args = 1%Z) /\
  (exit_code env args = 0%Z <->
   (if args_dry_run args
    then existsb import_succeeded (trace env args)
    else existsb is_summary (trace env args)) = true).
Proof.
  destruct (outcome_parts env args) as (H1 & H2 & _).
  apply orb_true_iff in H1. rewrite !Z.eqb_eq in H1.
  apply eqb_prop in H2. rewrite <- H2, Z.eqb_eq. tauto.
Qed.

(** X15. The four calls that work on the device node (its resolution,
    the unmount, the reorder and the mount) are invoked only in a
    session that is no dry run and whose import succeeded. *)
Theorem device_calls_only_after_import (env : Env) (args : Namespace) :
  existsb touches_device (trace env args) = true ->
  args_dry_run args = false /\ existsb import_succeeded (trace env args) = true.
Proof.
  intros H. destruct (outcome_parts env args) as (_ & _ & H3 & H4 & _).
  rewrite H in H3, H4. simpl in H4.
  destruct (args_dry_run args); [discriminate H3 | auto].
Qed.

Lemma device_calls_only_after_import_witness :
  args_dry_run (default_args false) = false /\
  existsb import_succeeded (trace happy_env (default_args false)) = true.
Proof.
  exact (device_calls_only_after_import happy_env (default_args false) eq_refl).
Defined.

(** X16. create_beets_config is invoked in exactly the sessions whose
    configuration check fails; a dry run is no exception. *)
Theorem config_created_iff_rejected (env : Env) (args : Namespace) :
  existsb is_create (trace env args) = true <->
  existsb config_rejected (trace env args) = true.
Proof.
  split.
  - intros H. apply existsb_split in H as (pre & e & post & Htr & He).
    pose proof (each_position_spec _ _ _ (session_stage_check env args)
                  pre e post Htr) as Hs.
    destruct e; try discriminate He. simpl in Hs.
    apply andb_true_iff in Hs as [Hs _]. rewrite Htr.
    apply existsb_prefix, Hs.
  - intros H. destruct (outcome_parts env args) as (_ & _ & _ & _ & H5 & _).
    rewrite H in H5. exact H5.
Qed.

(** X18. When the unmount fails the session stops there: the reorder
    and the mount are not invoked, and the exit code is 1. *)
Theorem unmount_failure_halts (env : Env) (args : Namespace) :
  existsb unmount_failed (trace env args) = true ->
  existsb is_reorder (trace env args) = false /\
  existsb is_mount (trace env args) = false /\
  exit_code env args = 1%Z.
Proof.
  intros H.
  destruct (outcome_parts env args) as (_ & _ & _ & _ & _ & _ & H7 & _).
  rewrite H in H7. simpl in H7.
  apply andb_true_iff in H7 as [H7 Hc]. apply andb_true_iff in H7 as [Hr Hm].
  apply negb_true_iff in Hr, Hm. apply Z.eqb_eq in Hc. auto.
Qed.

Lemma unmount_failure_halts_witness :
  existsb is_reorder (trace unmount_refused_env (default_args false)) = false /\
  existsb is_mount (trace unmount_refused_env (default_args false)) = false /\
  exit_code unmount_refused_env (default_args false) = 1%Z.
Proof.
  exact (unmount_failure_halts unmount_refused_env (default_args false) eq_refl).
Defined.

(** X19. When the reorder succeeds and the mount after it fails, the
    session ends with exit code 1 after one unmount, one reorder and one
    mount: nothing is retried, and one error is logged. *)
Theorem remount_failure_is_final (env : Env) (args : Namespace) :
  existsb reorder_succeeded (trace env args) = true ->
  existsb mount_failed (trace env args) = true ->
  exit_code env args = 1%Z /\
  count is_unmount (trace env args) = 1 /\
  count is_reorder (trace env args) = 1 /\
  count is_mount (trace env args) = 1 /\
  count is_error_log (trace env args) = 1.
Proof.
  intros Hr Hm.
  destruct (outcome_parts env args) as (_ & _ & _ & _ & _ & _ & _ & H8 & _).
  rewrite Hr, Hm in H8. simpl in H8. rewrite !andb_true_iff in H8.
  rewrite Z.eqb_eq, !Nat.eqb_eq in H8. tauto.
Qed.

Lemma remount_failure_is_final_witness :
  exit_code remount_refused_env (default_args false) = 1%Z /\
  count is_unmount (trace remount_refused_env (default_args false)) = 1 /\
  count is_reorder (trace remount_refused_env (default_args false)) = 1 /\
  count is_mount (trace remount_refused_env (default_args false)) = 1 /\
  count is_error_log (trace remount_refused_env (default_args false)) = 1.
Proof.
  exact (remount_failure_is_final remount_refused_env (default_args false)
           eq_refl eq_refl).
Defined.

(** X20. A session that ends with exit code 0 has logged no error; one
    that ends with exit code 1 has logged an error, unless it stopped at
    the dependency check (which prints its own report). *)
Theorem failures_are_logged (env : Env) (args : Namespace) :
  (exit_code env args = 0%Z ->
   existsb is_error_log (trace env args) = false) /\
  (exit_code env args = 1%Z ->
   existsb dependencies_verified (trace env args) = true ->
   existsb is_error_log (trace env args) = true).
Proof.
  destruct (outcome_parts env args)
    as (_ & _ & _ & _ & _ & _ & _ & _ & H9 & H10).
  split.
  - intros Hc. rewrite Hc in H9. simpl in H9. apply negb_true_iff, H9.
  - intros Hc Hd. rewrite Hc, Hd in H10. exact H10.
Qed.

Ltac find_in_trace :=
  cbn [In]; repeat first [left; reflexivity | right].

Ltac check_call :=
  cbv beta iota zeta delta
    [call_ok report_ok args_mountpoint args_bitrate args_dry_run args_verbose
     app];
  repeat match goal with
         | |- context [match ?x with _ => _ end] => destruct x
         end;
  repeat match goal with
         | |- _ /\ _ => split
         | |- True => exact I
         | |- _ = _ => reflexivity
         | |- exists _, _ => eexists
         | |- In _ _ => find_in_trace
         | |- _ -> _ =>
             let H := fresh in
             intros H; revert H; session_eval; intros H; try discriminate H
         end.

Lemma session_calls (env : Env) (args : Namespace) :
  Forall (fun e => call_ok env args (trace env args) e /\
                   report_ok (trace env args) e)
         (trace env args).
Proof.
  destruct args as [mp br nc dry vb].
  run_session;
    repeat (apply List.Forall_cons; [check_call|]); exact (List.Forall_nil _).
Qed.

(** X21. A session calls its collaborators on what it was given and on
    what it resolved: the mount check, the file counts, the resolution
    and the unmount on the mountpoint of the arguments; the
    configuration check and creation on the default path; the import as
    beet -c <config> import --quiet <mountpoint>, with --pretend exactly
    in a dry run; the reorder under sudo on the raw form of the node
    that the resolution returned; and every mount (after a failed
    reorder as after a successful one) on that node itself, which is
    never resolved anew. *)
Theorem session_call_arguments (env : Env) (args : Namespace) (e : event) :
  In e (trace env args) -> call_ok env args (trace env args) e.
Proof.
  intros H.
  exact (proj1 (proj1 (List.Forall_forall _ _) (session_calls env args) e H)).
Qed.

Lemma session_call_arguments_witness :
  In (GetDeviceNode "/Volumes/XTRAINERZ" (Ok "/dev/disk4s1"))
     (trace stuck_env (default_args false)).
Proof.
  apply (session_call_arguments stuck_env (default_args false)
           (MountVolume "/dev/disk4s1"
              (Raise (MkDiskutilError
                        ("Command failed: diskutil mount /dev/disk4s1" +:+ nl +:+
                         "Volume on disk4s1 failed to mount"))))).
  vm_compute. tauto.
Defined.

(** X22. Within a session the command of the reorder is always sudo
    fatsort -o a on the raw form of the resolved node, and that target
    has no /dev/disk in it: the tool is never run on the buffered node. *)
Theorem session_reorder_command (env : Env) (args : Namespace)
    (device_node : string) (use_sudo : bool) (r : result FatsortError unit) :
  In (RunFatsort device_node use_sudo r) (trace env args) ->
  exists node,
    In (GetDeviceNode (args_mountpoint args) (Ok node)) (trace env args) /\
    fatsort_cmd device_node use_sudo
    = ["sudo"; "fatsort"; "-o"; "a"; get_raw_device_node node] /\
    Str.contains "/dev/disk" (get_raw_device_node node) = false.
Proof.
  intros H.
  destruct (proj1 (proj1 (List.Forall_forall _ _) (session_calls env args) _ H))
    as (-> & node & Hin & ->).
  exists node. split; [exact Hin|]. split; [|apply raw_has_no_disk].
  rewrite fatsort_cmd_shape, ensure_raw_of_raw. reflexivity.
Qed.

Lemma session_reorder_command_witness :
  exists node,
    In (GetDeviceNode "/Volumes/XTRAINERZ" (Ok node))
       (trace happy_env (default_args false)) /\
    fatsort_cmd "/dev/rdisk4s1" true
    = ["sudo"; "fatsort"; "-o"; "a"; get_raw_device_node node] /\
    Str.contains "/dev/disk" (get_raw_device_node node) = false.
Proof.
  apply (session_reorder_command happy_env (default_args false)
           "/dev/rdisk4s1" true (Ok tt)).
  vm_compute. tauto.
Defined.

(** X23. Every failure of a collaborator that ends a session is logged
    as an error with the collaborator's own text: a volume not found
    mounted, a configuration that could not be created, a failed
    resolution, unmount or reorder, and a mount that fails after a
    successful reorder. *)
Theorem collaborator_failures_are_logged (env : Env) (args : Namespace)
    (e : event) :
  In e (trace env args) -> report_ok (trace env args) e.
Proof.
  intros H.
  exact (proj2 (proj1 (List.Forall_forall _ _) (session_calls env args) e H)).
Qed.

Lemma collaborator_failures_are_logged_witness :
  In (Log Error ("Failed to remount: Command failed: diskutil mount /dev/disk4s1"
                 +:+ nl +:+ "Volume on disk4s1 failed to mount"))
     (trace remount_refused_env (default_args false)).
Proof.
  refine (collaborator_failures_are_logged remount_refused_env (default_args false)
            (MountVolume "/dev/disk4s1"
               (Raise (MkDiskutilError
                         ("Command failed: diskutil mount /dev/disk4s1" +:+ nl +:+
                          "Volume on disk4s1 failed to mount")))) _ eq_refl).
  vm_compute. tauto.
Defined.

(** ** The init-config command *)

(** X24. init_config leaves an existing configuration alone unless
    --force is given: create_beets_config is invoked exactly when no
    configuration exists or force is set, and otherwise the command logs
    that the configuration exists and exits with 1. The exit code is 0
    exactly when the creation was invoked and succeeded. *)
Theorem init_config_respects_existing (env : Env)
    (config_exists : list event -> bool) (args : InitNamespace) :
  let code := fst (init_config env config_exists args []) in
  let tr := snd (init_config env config_exists args []) in
  (existsb is_create tr = true <->
   config_exists [] = false \/ init_force args = true) /\
  (config_exists [] = true -> init_force args = false ->
   tr = [Log Error ("Config already exists: " +:+ get_default_config_path env)]
   /\ code = 1%Z) /\
  (code = 0%Z <-> existsb config_ready tr = true) /\
  (code = 0%Z \/ code = 1%Z).
Proof.
  destruct args as [mp br force].
  cbv beta iota zeta delta
    [init_config call_create_beets_config perform emit bind ret mbind M_bind
     log_step log_success log_error fst snd app init_force init_mountpoint
     init_bitrate].
  destruct (config_exists []); destruct force; cbn [andb negb];
    try (destruct (create_beets_config env _ _ _ _); cbn);
    cbn; intuition (try discriminate; auto).
Qed.

Lemma init_config_respects_existing_witness :
  snd (init_config happy_env (fun _ => true)
         {| init_mountpoint := "/Volumes/XTRAINERZ"; init_bitrate := "96k";
            init_force := false |} [])
  = [Log Error "Config already exists: /Users/me/.config/beets/config.yaml"] /\
  fst (init_config happy_env (fun _ => true)
         {| init_mountpoint := "/Volumes/XTRAINERZ"; init_bitrate := "96k";
            init_force := false |} []) = 1%Z.
Proof.
  exact (proj1 (proj2 (init_config_respects_existing happy_env (fun _ => true)
                         {| init_mountpoint := "/Volumes/XTRAINERZ";
                            init_bitrate := "96k"; init_force := false |}))
           eq_refl eq_refl).
Defined.

(** ** The functions with every exception, and the ones above

    On a process that completed the two embeddings agree, and so do they
    on the exceptions that [run_fatsort] catches; an exception of
    another class goes through the utilities unchanged. *)

Lemma uncaught_run_command (cmd : list string) (check : bool)
    (p : CompletedProcess) :
  Uncaught.run_command cmd check (Ok p)
  = Uncaught.of_diskutil (run_command cmd check p).
Proof.
  unfold Uncaught.run_command, run_command.
  destruct (check && negb (returncode p =? 0)%Z); reflexivity.
Qed.

Lemma uncaught_get_device_node (mountpoint : string) (p : CompletedProcess) :
  Uncaught.get_device_node mountpoint (Ok p)
  = Uncaught.of_diskutil (get_device_node mountpoint p).
Proof.
  unfold Uncaught.get_device_node, get_device_node,
    Uncaught.get_mount_info, get_mount_info.
  rewrite uncaught_run_command.
  destruct (run_command _ true p) as [result|e]; [|reflexivity].
  cbv beta iota zeta delta [Uncaught.of_diskutil].
  destruct (decide (parse_info (stdout result) = ∅)); [reflexivity|].
  destruct (parse_info (stdout result) !! "Device Node") as [[|c node]|];
    reflexivity.
Qed.

Lemma uncaught_unmount_volume (mountpoint : string) (p : CompletedProcess) :
  Uncaught.unmount_volume mountpoint (Ok p)
  = Uncaught.of_diskutil (unmount_volume mountpoint p).
Proof.
  unfold Uncaught.unmount_volume, unmount_volume.
  rewrite uncaught_run_command.
  destruct (run_command _ true p) as [result|e];
    cbv beta iota zeta delta [Uncaught.of_diskutil Uncaught.as_DiskutilError].
  - destruct (negb (Str.contains "unmounted" (Str.lower (stdout result))));
      cbv beta iota; [|reflexivity].
    destruct (says_busy _); reflexivity.
  - destruct (says_busy _); reflexivity.
Qed.

Lemma uncaught_mount_volume (device_node : string) (p : CompletedProcess) :
  Uncaught.mount_volume device_node (Ok p)
  = Uncaught.of_diskutil (mount_volume device_node p).
Proof.
  unfold Uncaught.mount_volume, mount_volume.
  rewrite uncaught_run_command.
  destruct (run_command _ true p) as [result|e]; [|reflexivity].
  cbv beta iota zeta delta [Uncaught.of_diskutil].
  destruct (negb (Str.contains "mounted" (Str.lower (stdout result))));
    reflexivity.
Qed.

Lemma uncaught_mount_volume_raises (device_node : string)
    (x : Uncaught.exception) :
  Uncaught.mount_volume device_node (Raise x) = Raise x.
Proof. reflexivity. Qed.

Lemma uncaught_run_fatsort (device_node : string) (use_sudo : bool)
    (p : CompletedProcess) (text : string) :
  Uncaught.run_fatsort device_node use_sudo (Ok p)
  = Uncaught.of_fatsort (run_fatsort device_node use_sudo (FatsortRan p)) /\
  Uncaught.run_fatsort device_node use_sudo
    (Raise (Uncaught.FileNotFoundError text))
  = Uncaught.of_fatsort (run_fatsort device_node use_sudo FatsortNotFound).
Proof.
  split; [|reflexivity]. unfold Uncaught.run_fatsort, run_fatsort.
  destruct (returncode p =? 0)%Z; reflexivity.
Qed.

Lemma uncaught_run_fatsort_raises (device_node : string) (use_sudo : bool)
    (x : Uncaught.exception) :
  Uncaught.is_FileNotFoundError x = false ->
  Uncaught.run_fatsort device_node use_sudo (Raise x) = Raise x.
Proof. intros H. unfold Uncaught.run_fatsort. rewrite H. reflexivity. Qed.

(** ** Sessions that an exception can leave *)

Import Uncaught.







(** C2 as stated fails, twice.  The mount after a failed reorder raises
    an OSError: the exception is not swallowed and no exit code is
    returned.  And the reorder fails with an exception that is no
    FatsortError: the mount is not invoked at all. *)
Lemma remount_failure_not_swallowed :
  (existsb unmount_succeeded (trace remount_raises_env (default_args false))
   = true /\
   existsb reorder_failed (trace remount_raises_env (default_args false))
   = true /\
   List.last (trace remount_raises_env (default_args false)) (Log Info "")
   = MountVolume "/dev/disk4s1"
       (Raise (OSError "[Errno 24] Too many open files")) /\
   outcome remount_raises_env (default_args false)
   = Raise (OSError "[Errno 24] Too many open files")) /\
  (existsb unmount_succeeded (trace reorder_raises_env (default_args false))
   = true /\
   List.last (trace reorder_raises_env (default_args false)) (Log Info "")
   = RunFatsort "/dev/rdisk4s1" true
       (Raise (UnicodeDecodeError
                 "'utf-8' codec can't decode byte 0xe9 in position 17: invalid continuation byte")) /\
   count is_mount (trace reorder_raises_env (default_args false)) = 0 /\
   outcome reorder_raises_env (default_args false)
   = Raise (UnicodeDecodeError
              "'utf-8' codec can't decode byte 0xe9 in position 17: invalid continuation byte")).
Proof. repeat split; vm_compute; reflexivity. Qed.




(** ** Dependencies, with every exception *)






(** ffmpeg is on the path and cannot be executed: the PermissionError
    leaves verify_dependencies, which returns nothing. *)
Example verify_dependencies_raises :
  verify_dependencies (fun _ => true)
    (fun cmd => match cmd with
                | ["ffmpeg"; _] =>
                    Raise (PermissionError "[Errno 13] Permission denied: 'ffmpeg'")
                | _ => Ok (completed 0 "" "")
                end) false
  = Raise (PermissionError "[Errno 13] Permission denied: 'ffmpeg'").
Proof. reflexivity. Qed.
